(** * Release publisher: [scripts/upload_release.py]

    A shallow embedding of the release/upload script and the properties
    of its control flow.  The script is a straight line of filesystem
    reads, environment lookups and HTTP requests; the embedding threads
    an explicit log of what the process printed and which requests it
    sent, and returns either a value, a [sys.exit(1)] or an uncaught
    Python exception. *)

From Stdlib Require Import String Ascii List ZArith Lia Bool.
Import ListNotations.
Local Open Scope list_scope.
Local Open Scope string_scope.

(** ** Python strings *)

Module PyStr.

(** [s.startswith(p)] *)
Definition startswith (s p : string) : bool := String.prefix p s.

(** [s.split(sep)] for a one-character separator: the pieces between the
    separators, one more piece than there are separators. *)
Fixpoint split (sep : ascii) (s : string) : list string :=
  match s with
  | EmptyString => [EmptyString]
  | String c rest =>
      if Ascii.eqb c sep then EmptyString :: split sep rest
      else match split sep rest with
           | [] => [String c EmptyString]
           | piece :: pieces => String c piece :: pieces
           end
  end.

(** Number of occurrences of a character. *)
Fixpoint count (c : ascii) (s : string) : nat :=
  match s with
  | EmptyString => 0
  | String d rest => (if Ascii.eqb d c then 1 else 0) + count c rest
  end.

(** Iterating a text file: each line keeps its terminating newline, the
    last line is the remainder when it is not empty. *)
Fixpoint readlines_from (cur : string) (s : string) : list string :=
  match s with
  | EmptyString => match cur with EmptyString => [] | _ => [cur] end
  | String c rest =>
      if Ascii.eqb c "010"%char
      then (cur ++ String c EmptyString) :: readlines_from EmptyString rest
      else readlines_from (cur ++ String c EmptyString) rest
  end.

Definition readlines (s : string) : list string := readlines_from EmptyString s.

(** [os.path.basename]: what follows the last slash. *)
Fixpoint basename_from (cur : string) (p : string) : string :=
  match p with
  | EmptyString => cur
  | String c rest =>
      if Ascii.eqb c "/"%char then basename_from EmptyString rest
      else basename_from (cur ++ String c EmptyString) rest
  end.

Definition basename (p : string) : string := basename_from EmptyString p.

(** Truth value of a string: empty is false. *)
Definition truthy (s : string) : bool :=
  match s with EmptyString => false | _ => true end.

End PyStr.

Definition quote : ascii := "034"%char.

(** ** Python values read from a JSON body

    Numbers are integers, a dict is the list of its items. *)

#[warnings="-register-all"]
Inductive value : Type :=
| VNone
| VBool (b : bool)
| VInt (n : Z)
| VStr (s : string)
| VList (items : list value)
| VDict (items : list (string * value)).

(** Truth value as tested by [if not x]. *)
Definition truthy (v : value) : bool :=
  match v with
  | VNone => false
  | VBool b => b
  | VInt n => negb (Z.eqb n 0)
  | VStr s => PyStr.truthy s
  | VList items => match items with [] => false | _ => true end
  | VDict items => match items with [] => false | _ => true end
  end.

Fixpoint dict_get (key : string) (items : list (string * value)) : option value :=
  match items with
  | [] => None
  | (k, v) :: rest => if String.eqb k key then Some v else dict_get key rest
  end.

(** [a or b] on optional strings ([None] and the empty string are false). *)
Definition str_or (a b : option string) : option string :=
  match a with
  | Some s => if PyStr.truthy s then a else b
  | None => b
  end.

Definition opt_truthy (a : option string) : bool :=
  match a with
  | Some s => PyStr.truthy s
  | None => false
  end.

(** ** The process and what surrounds it *)

(** What a path names on disk.  [Path.exists] holds of both; [open]
    succeeds on a file only.  A file is its content; for the
    configuration file that is the text as Python reads it, line ends
    being newlines.  Paths are strings in the form [pathlib] prints
    them. *)
Inductive entry : Type :=
| File (content : string)
| Dir (st_size : nat).

Definition headers : Type := list (string * string).

(** Body of the creation request (lines 44-50). *)
Record release_data : Type := {
  rd_tag_name : string;
  rd_name : string;
  rd_body : string;
  rd_draft : bool;
  rd_prerelease : bool
}.

(** The three requests the script sends.  The upload goes to
    [{url}/releases/{release_id}/assets]; the interpolated identifier is
    kept as the value it was read as. *)
Inductive request : Type :=
| Get (url : string) (hdrs : headers)
| PostJson (url : string) (hdrs : headers) (data : release_data)
| PostFile (release_id : value) (hdrs : headers)
           (file_name : string) (content : string) (mime : string)
           (params : list (string * string)).

(** A response: status code, body text, and the body parsed by
    [response.json()] ([None] when the body is not JSON). *)
Record response : Type := {
  status_code : Z;
  text : string;
  json : option value
}.

(** Lines written to standard output, one constructor per [print], with
    the values the line interpolates (the size in bytes, where the line
    shows megabytes). *)
Inductive message : Type :=
| MsgTokenRequired
| MsgSetToken
| MsgToCreateToken
| MsgTokenStep1
| MsgTokenStep2
| MsgNoVersion
| MsgFileNotFound (file_path : string)
| MsgReleaseExists (tag_name : string)
| MsgCreateFailed (status : Z)
| MsgText (body : string)
| MsgCreated (tag_name : string)
| MsgUploading (file_name : string) (file_size : nat)
| MsgUploaded (file_name : string)
| MsgUploadFailed (status : Z)
| MsgDone (tag_name : string)
| MsgUrl (html_url : value).

Inductive event : Type :=
| Print (m : message)
| Send (r : request).

Definition trace : Type := list event.

(** The surroundings of one run: the working directory, the environment
    and the remote service.  The service answers a request knowing
    everything that happened before it; [None] is a transport failure. *)
Record world : Type := {
  fs : string -> option entry;
  environ : string -> option string;
  service : trace -> request -> option response
}.

(** The [sys.exit(1)] sites of [main], named after the error each one
    reports: line 105, line 111, line 123, and lines 129 and 133. *)
Inductive failure : Type :=
| AuthError
| ConfigError
| InputError
| ServiceError.

(** Exceptions no handler catches. *)
Inductive exn : Type :=
| IndexError
| KeyError
| TypeError
| FileNotFoundError
| IsADirectoryError
| RequestException
| JSONDecodeError.

Inductive result (A : Type) : Type :=
| Ret (a : A)
| SysExit (f : failure)
| Raise (e : exn).
Arguments Ret {A} a.
Arguments SysExit {A} f.
Arguments Raise {A} e.

(** A computation reads the world and extends the log. *)
Definition M (A : Type) : Type := world -> trace -> result A * trace.

Definition ret {A} (a : A) : M A := fun _ tr => (Ret a, tr).

Definition bind {A B} (m : M A) (k : A -> M B) : M B :=
  fun w tr =>
    match m w tr with
    | (Ret a, tr') => k a w tr'
    | (SysExit f, tr') => (SysExit f, tr')
    | (Raise e, tr') => (Raise e, tr')
    end.

Definition sys_exit {A} (f : failure) : M A := fun _ tr => (SysExit f, tr).
Definition raise {A} (e : exn) : M A := fun _ tr => (Raise e, tr).
Definition print (m : message) : M unit := fun _ tr => (Ret tt, tr ++ [Print m])%list.
Definition stat (path : string) : M (option entry) := fun w tr => (Ret (fs w path), tr).
Definition getenv (name : string) : M (option string) :=
  fun w tr => (Ret (environ w name), tr).

(** [requests.get] / [requests.post]: the request is logged, then the
    service answers or the transport fails. *)
Definition send (r : request) : M response :=
  fun w tr =>
    match service w tr r with
    | Some resp => (Ret resp, tr ++ [Send r])%list
    | None => (Raise RequestException, tr ++ [Send r])%list
    end.

(** [response.json()] *)
Definition parse_json (resp : response) : M value :=
  match json resp with
  | Some v => ret v
  | None => raise JSONDecodeError
  end.

(** [v[key]] for a string key. *)
Definition subscript (v : value) (key : string) : M value :=
  match v with
  | VDict items =>
      match dict_get key items with
      | Some x => ret x
      | None => raise KeyError
      end
  | _ => raise TypeError
  end.

Notation "x <- m ;; k" := (bind m (fun x => k))
  (at level 61, m at next level, right associativity).
Notation "m ;;; k" := (bind m (fun _ => k))
  (at level 61, right associativity).

(** ** The script *)

Definition REPO_OWNER : string := "conghuy93".
Definition REPO_NAME : string := "kikichatwiath_ai".

Definition marker : string := "set(PROJECT_VER".
Definition nl : string := String "010"%char EmptyString.

(** The loop of [get_project_version] (lines 22-24): the first line that
    starts with the marker decides; element 1 of its split is returned,
    and indexing past the end raises. *)
Fixpoint scan_lines (lines : list string) : M (option string) :=
  match lines with
  | [] => ret None
  | line :: rest =>
      if PyStr.startswith line marker
      then match nth_error (PyStr.split quote line) 1 with
           | Some v => ret (Some v)
           | None => raise IndexError
           end
      else scan_lines rest
  end.

Definition get_project_version : M (option string) :=
  e <- stat "CMakeLists.txt" ;;
  match e with
  | None => ret None
  | Some (Dir _) => raise IsADirectoryError
  | Some (File content) => scan_lines (PyStr.readlines content)
  end.

Definition releases_url : string :=
  "https://api.github.com/repos/" ++ REPO_OWNER ++ "/" ++ REPO_NAME ++ "/releases".

Definition auth_headers (token : string) : headers :=
  [("Authorization", "token " ++ token);
   ("Accept", "application/vnd.github.v3+json")].

Definition release_body (tag_name : string) : string :=
  "Firmware release " ++ tag_name ++ nl ++ nl ++ "## Features" ++ nl
  ++ "- QR code display for control panel" ++ nl
  ++ "- Auto-clear QR code after 30 seconds" ++ nl
  ++ "- Disabled auto-start webserver on boot" ++ nl
  ++ "- Updated ASR error handling".

Definition lookup_request (token tag_name : string) : request :=
  Get (releases_url ++ "/tags/" ++ tag_name) (auth_headers token).

Definition creation_request (token tag_name : string) : request :=
  PostJson releases_url (auth_headers token)
    {| rd_tag_name := tag_name;
       rd_name := "Release " ++ tag_name;
       rd_body := release_body tag_name;
       rd_draft := false;
       rd_prerelease := false |}.

(** [create_release] (lines 27-59); a returned [VNone] is Python's
    [None]. *)
Definition create_release (token version : string) (tag_name : option string)
  : M value :=
  let tag_name := match tag_name with
                  | None => "v" ++ version
                  | Some t => t
                  end in
  resp <- send (lookup_request token tag_name) ;;
  if Z.eqb (status_code resp) 200 then
    print (MsgReleaseExists tag_name) ;;;
    parse_json resp
  else
    resp <- send (creation_request token tag_name) ;;
    if negb (Z.eqb (status_code resp) 201) then
      print (MsgCreateFailed (status_code resp)) ;;;
      print (MsgText (text resp)) ;;;
      ret VNone
    else
      print (MsgCreated tag_name) ;;;
      parse_json resp.

(** [upload_asset] (lines 61-85). *)
Definition upload_asset (token : string) (release_id : value) (file_path : string)
  : M bool :=
  let file_name := PyStr.basename file_path in
  e <- stat file_path ;;
  match e with
  | None => raise FileNotFoundError
  | Some (Dir st_size) =>
      print (MsgUploading file_name st_size) ;;;
      raise IsADirectoryError
  | Some (File content) =>
      print (MsgUploading file_name (String.length content)) ;;;
      resp <- send (PostFile release_id (auth_headers token) file_name content
                      "application/octet-stream" [("name", file_name)]) ;;
      if Z.eqb (status_code resp) 201 then
        print (MsgUploaded file_name) ;;;
        ret true
      else
        print (MsgUploadFailed (status_code resp)) ;;;
        print (MsgText (text resp)) ;;;
        ret false
  end.

(** The parsed command line. *)
Record Args : Type := {
  token : option string;
  file : option string;
  tag : option string;
  merged_bin : bool
}.

(** Lines 114-119. *)
Definition select_file (args : Args) (version : string) : string :=
  if merged_bin args then "build/merged-binary.bin"
  else if opt_truthy (file args)
       then match file args with Some p => p | None => EmptyString end
       else "releases/v" ++ version ++ "_kiki.zip".

(** Line 126. *)
Definition select_tag (args : Args) (version : string) : string :=
  match str_or (tag args) (Some ("v" ++ version)) with
  | Some t => t
  | None => "v" ++ version
  end.

(** Lines 100-105 and 110-111. *)
Definition fail_auth {A} : M A :=
  print MsgTokenRequired ;;;
  print MsgSetToken ;;;
  print MsgToCreateToken ;;;
  print MsgTokenStep1 ;;;
  print MsgTokenStep2 ;;;
  sys_exit AuthError.

Definition fail_config {A} : M A :=
  print MsgNoVersion ;;; sys_exit ConfigError.

(** Line 98: [args.token or os.environ.get("GITHUB_TOKEN")]. *)
Definition resolve_token (w : world) (args : Args) : option string :=
  str_or (token args) (environ w "GITHUB_TOKEN").

(** [main] (lines 87-136). *)
Definition main (args : Args) : M unit :=
  env_token <- getenv "GITHUB_TOKEN" ;;
  match str_or (token args) env_token with
  | None => fail_auth
  | Some token =>
  if negb (PyStr.truthy token) then fail_auth
  else
  version <- get_project_version ;;
  match version with
  | None => fail_config
  | Some version =>
  if negb (PyStr.truthy version) then fail_config
  else
  let file_path := select_file args version in
  e <- stat file_path ;;
  match e with
  | None => print (MsgFileNotFound file_path) ;;; sys_exit InputError
  | Some _ =>
  let tag_name := select_tag args version in
  release <- create_release token version (Some tag_name) ;;
  if negb (truthy release) then sys_exit ServiceError
  else
  release_id <- subscript release "id" ;;
  ok <- upload_asset token release_id file_path ;;
  if negb ok then sys_exit ServiceError
  else
  print (MsgDone tag_name) ;;;
  html_url <- subscript release "html_url" ;;
  print (MsgUrl html_url)
  end end end.

(** One run of the script from an empty log. *)
Definition run (w : world) (args : Args) : result unit * trace := main args w [].

(** ** Reading the log *)

(** The requests of a log, in the order they were sent. *)
Fixpoint requests_of (tr : trace) : list request :=
  match tr with
  | [] => []
  | Send r :: rest => r :: requests_of rest
  | Print _ :: rest => requests_of rest
  end.

Definition is_creation (r : request) : bool :=
  match r with PostJson _ _ _ => true | _ => false end.

Definition is_upload (r : request) : bool :=
  match r with PostFile _ _ _ _ _ _ => true | _ => false end.


(** * Vocabulary of the properties *)

(** No line of [ls] starts with the marker. *)
Definition no_marker (ls : list string) : Prop :=
  Forall (fun l => PyStr.startswith l marker = false) ls.

(** A line [a "v" b]. *)
Definition quoted_line (a v b : string) : string :=
  a ++ String quote (v ++ String quote b).

(** The outcome of [get_project_version] in a world. *)
Definition version_of (w : world) : result (option string) :=
  fst (get_project_version w []).

(** Lines 125-136 of [main]: what is left once the token, the version
    and the file are settled. *)
Definition publish (tok version tag_name file_path : string) : M unit :=
  release <- create_release tok version (Some tag_name) ;;
  if negb (truthy release) then sys_exit ServiceError
  else
  release_id <- subscript release "id" ;;
  ok <- upload_asset tok release_id file_path ;;
  if negb ok then sys_exit ServiceError
  else
  print (MsgDone tag_name) ;;;
  html_url <- subscript release "html_url" ;;
  print (MsgUrl html_url).

(** What a run without a token leaves in the log (lines 100-104). *)
Definition auth_log : trace :=
  [Print MsgTokenRequired; Print MsgSetToken; Print MsgToCreateToken;
   Print MsgTokenStep1; Print MsgTokenStep2].

(** Lines 29-30: the tag [create_release] works with. *)
Definition effective_tag (version : string) (tag_name : option string) : string :=
  match tag_name with
  | None => "v" ++ version
  | Some t => t
  end.

(** The upload request for a release, a token and a file on disk. *)
Definition upload_request (tok : string) (release_id : value)
    (file_path content : string) : request :=
  PostFile release_id (auth_headers tok) (PyStr.basename file_path) content
    "application/octet-stream" [("name", PyStr.basename file_path)].

(** What the lookup answered and, when it was asked, what the creation
    answered. *)
Definition lookup_response (w : world) (tok tag_name : string) (tr : trace)
  : option response :=
  service w tr (lookup_request tok tag_name).

Definition creation_response (w : world) (tok tag_name : string) (tr : trace)
  : option response :=
  service w (tr ++ [Send (lookup_request tok tag_name)])%list
    (creation_request tok tag_name).

Definition parsed (r : response) : result value :=
  match json r with
  | Some v => Ret v
  | None => Raise JSONDecodeError
  end.

(** The request sequences a run can produce once it reaches the service:
    the lookup, then at most one creation, then at most one upload, and
    the upload carries the bytes the path holds on disk. *)
Inductive publish_requests (w : world) (tok tag_name file_path : string)
  : list request -> Prop :=
| pr_lookup :
    publish_requests w tok tag_name file_path [lookup_request tok tag_name]
| pr_create :
    publish_requests w tok tag_name file_path
      [lookup_request tok tag_name; creation_request tok tag_name]
| pr_upload release_id content :
    fs w file_path = Some (File content) ->
    publish_requests w tok tag_name file_path
      [lookup_request tok tag_name;
       upload_request tok release_id file_path content]
| pr_create_upload release_id content :
    fs w file_path = Some (File content) ->
    publish_requests w tok tag_name file_path
      [lookup_request tok tag_name; creation_request tok tag_name;
       upload_request tok release_id file_path content].

Ltac split_match :=
  match goal with
  | |- context [match ?x with _ => _ end] =>
      lazymatch x with
      | context [match _ with _ => _ end] => fail
      | _ => destruct x eqn:?
      end
  end.

(** ** Sample surroundings

    Concrete worlds on which the statements below are exercised. *)

Definition q : string := String quote EmptyString.

(** A configuration file declaring version 2.1.0. *)
Definition cmake_210 : string :=
  "cmake_minimum_required(VERSION 3.16)" ++ nl
  ++ "set(PROJECT_VER " ++ q ++ "2.1.0" ++ q ++ ")" ++ nl
  ++ "project(kiki)" ++ nl.

(** The closing quote of the declaration is missing. *)
Definition cmake_open_quote : string :=
  "set(PROJECT_VER " ++ q ++ "2.1.0)" ++ nl ++ "project(kiki)" ++ nl.

(** The declaration carries no quote at all. *)
Definition cmake_bare : string :=
  "set(PROJECT_VER 2.1.0)" ++ nl ++ "project(kiki)" ++ nl.

(** No declaration. *)
Definition cmake_plain : string :=
  "cmake_minimum_required(VERSION 3.16)" ++ nl ++ "project(kiki)" ++ nl.

Fixpoint lookup_path (files : list (string * entry)) (path : string)
  : option entry :=
  match files with
  | [] => None
  | (p, e) :: rest => if String.eqb p path then Some e else lookup_path rest path
  end.

(** A world from a list of files, the value of [GITHUB_TOKEN], and one
    fixed answer per kind of request. *)
Definition mk_world (files : list (string * entry)) (env_token : option string)
    (on_lookup on_create on_upload : option response) : world :=
  {| fs := lookup_path files;
     environ := fun name =>
       if String.eqb name "GITHUB_TOKEN" then env_token else None;
     service := fun _ r =>
       match r with
       | Get _ _ => on_lookup
       | PostJson _ _ _ => on_create
       | PostFile _ _ _ _ _ _ => on_upload
       end |}.

Definition record (id : Z) : value :=
  VDict [("id", VInt id); ("html_url", VStr "https://example.invalid/r")].

Definition answer (status : Z) (body : string) (parsed_body : option value)
  : option response :=
  Some {| status_code := status; text := body; json := parsed_body |}.

Definition all_files (cmake : string) : list (string * entry) :=
  [("CMakeLists.txt", File cmake);
   ("releases/v2.1.0_kiki.zip", File "ZIP");
   ("build/merged-binary.bin", File "MERGED");
   ("fw.zip", File "FW")].

(** The tag does not exist yet; creation and upload succeed. *)
Definition w_fresh : world :=
  mk_world (all_files cmake_210) (Some "secret")
    (answer 404 "Not Found" None)
    (answer 201 "created" (Some (record 7)))
    (answer 201 "uploaded" None).

(** The tag exists already as release 42. *)
Definition w_existing : world :=
  mk_world (all_files cmake_210) (Some "secret")
    (answer 200 "found" (Some (record 42)))
    (answer 201 "created" (Some (record 7)))
    (answer 201 "uploaded" None).

(** The service refuses the creation. *)
Definition w_rejected : world :=
  mk_world (all_files cmake_210) (Some "secret")
    (answer 404 "Not Found" None)
    (answer 422 "Validation Failed" None)
    (answer 201 "uploaded" None).

(** The lookup itself is refused (bad credentials). *)
Definition w_unauthorized : world :=
  mk_world (all_files cmake_210) (Some "secret")
    (answer 401 "Bad credentials" None)
    (answer 401 "Bad credentials" None)
    (answer 401 "Bad credentials" None).

(** Neither a token in the environment nor any asset on disk. *)
Definition w_nothing : world :=
  mk_world [("CMakeLists.txt", File cmake_210)] None
    (answer 404 "Not Found" None)
    (answer 201 "created" (Some (record 7)))
    (answer 201 "uploaded" None).

(** A token but no asset on disk. *)
Definition w_no_asset : world :=
  mk_world [("CMakeLists.txt", File cmake_210)] (Some "secret")
    (answer 404 "Not Found" None)
    (answer 201 "created" (Some (record 7)))
    (answer 201 "uploaded" None).

Definition w_no_cmake : world :=
  mk_world [] (Some "secret") None None None.

Definition w_plain : world :=
  mk_world (all_files cmake_plain) (Some "secret") None None None.

Definition w_open_quote : world :=
  mk_world (all_files cmake_open_quote) (Some "secret") None None None.

Definition w_bare : world :=
  mk_world (all_files cmake_bare) (Some "secret") None None None.

Definition no_args : Args :=
  {| token := None; file := None; tag := None; merged_bin := false |}.

Definition both_args : Args :=
  {| token := None; file := Some "fw.zip"; tag := None; merged_bin := true |}.

(** ** More sample surroundings *)

Definition is_lookup (r : request) : bool :=
  match r with Get _ _ => true | _ => false end.

(** A declaration with an empty version. *)
Definition cmake_empty_version : string :=
  "set(PROJECT_VER " ++ q ++ q ++ ")" ++ nl ++ "project(kiki)" ++ nl.

Definition w_empty_version : world :=
  mk_world (all_files cmake_empty_version) (Some "secret") None None None.

(** The service answers the lookup with an empty object. *)
Definition w_empty_record : world :=
  mk_world (all_files cmake_210) (Some "secret")
    (answer 200 "{}" (Some (VDict [])))
    (answer 201 "created" (Some (record 7)))
    (answer 201 "uploaded" None).

(** The record has no identifier. *)
Definition w_no_id : world :=
  mk_world (all_files cmake_210) (Some "secret")
    (answer 200 "found" (Some (VDict [("html_url", VStr "u")])))
    (answer 201 "created" (Some (record 7)))
    (answer 201 "uploaded" None).

(** The record is a list. *)
Definition w_list_record : world :=
  mk_world (all_files cmake_210) (Some "secret")
    (answer 200 "found" (Some (VList [VInt 1])))
    (answer 201 "created" (Some (record 7)))
    (answer 201 "uploaded" None).

(** The record has an identifier and no address. *)
Definition w_no_url : world :=
  mk_world (all_files cmake_210) (Some "secret")
    (answer 200 "found" (Some (VDict [("id", VInt 42)])))
    (answer 201 "created" (Some (record 7)))
    (answer 201 "uploaded" None).

(** The upload is refused. *)
Definition w_upload_refused : world :=
  mk_world (all_files cmake_210) (Some "secret")
    (answer 404 "Not Found" None)
    (answer 201 "created" (Some (record 7)))
    (answer 422 "already_exists" None).

(** The body of the lookup answer is not JSON. *)
Definition w_bad_json : world :=
  mk_world (all_files cmake_210) (Some "secret")
    (answer 200 "<html>" None)
    (answer 201 "created" (Some (record 7)))
    (answer 201 "uploaded" None).

(** The default asset path names a directory. *)
Definition w_dir_asset : world :=
  mk_world [("CMakeLists.txt", File cmake_210);
            ("releases/v2.1.0_kiki.zip", Dir 4096)] (Some "secret")
    (answer 404 "Not Found" None)
    (answer 201 "created" (Some (record 7)))
    (answer 201 "uploaded" None).

Definition tagged_args : Args :=
  {| token := None; file := None; tag := Some "nightly"; merged_bin := false |}.

(** * The other two scripts *)

(** ** [scripts/download_qrcodegen.py]: where the file is saved

    [os.path.dirname] and [os.path.join] with the POSIX rules. *)

Module PosixPath.

(** [p[:p.rfind('/') + 1]]: the path up to and including its last
    slash. *)
Fixpoint head (p : string) : string :=
  match p with
  | EmptyString => EmptyString
  | String c rest =>
      if Nat.ltb 0 (PyStr.count "/"%char p) then String c (head rest)
      else EmptyString
  end.

(** [s.rstrip('/')] *)
Fixpoint rstrip (s : string) : string :=
  match s with
  | EmptyString => EmptyString
  | String c rest =>
      match rstrip rest with
      | EmptyString =>
          if Ascii.eqb c "/"%char then EmptyString else String c EmptyString
      | kept => String c kept
      end
  end.

(** [s == '/' * len(s)] *)
Fixpoint all_slashes (s : string) : bool :=
  match s with
  | EmptyString => true
  | String c rest => Ascii.eqb c "/"%char && all_slashes rest
  end.

Definition dirname (p : string) : string :=
  let h := head p in
  if PyStr.truthy h && negb (all_slashes h) then rstrip h else h.

(** [s.endswith('/')] *)
Fixpoint ends_with_slash (s : string) : bool :=
  match s with
  | EmptyString => false
  | String c EmptyString => Ascii.eqb c "/"%char
  | String _ rest => ends_with_slash rest
  end.

(** One round of the loop of [join]. *)
Definition join2 (path b : string) : string :=
  if PyStr.startswith b "/" then b
  else if negb (PyStr.truthy path) || ends_with_slash path then path ++ b
  else path ++ "/" ++ b.

Definition join (a : string) (parts : list string) : string :=
  fold_left join2 parts a.

End PosixPath.

Module Download.

Definition QRCODEGEN_URL : string :=
  "https://raw.githubusercontent.com/nayuki/QR-Code-generator/master/c/qrcodegen.c".

(** Line 10, as a function of the script's [__file__]. *)
Definition OUTPUT_FILE (file : string) : string :=
  PosixPath.join (PosixPath.dirname (PosixPath.dirname file))
    ["main"; "qrcode"; "qrcodegen.c"].

End Download.

(** ** [create_merged_bin.py]

    The script is one sequence of statements around a [try]; its run is
    a function of what it finds: whether the build directory can be
    entered, whether [esptool] imports, how [esptool.main] ends, which
    paths exist, and how the subprocess ends. *)

Module MergedBin.

(** How a call of [esptool.main] ends. *)
Inductive tool_end : Type :=
| Returns
| RaisesImportError
| RaisesException
| RaisesSystemExit (code : Z).

Record world : Type := {
  chdir_ok : bool;
  import_ok : bool;
  esptool_main : list string -> tool_end;
  path_exists : string -> bool;
  getsize : string -> nat;
  (** [None]: the process could not be started. *)
  subprocess_run : list string -> option Z
}.

Inductive message : Type :=
| MsgRule
| MsgTitle
| MsgMerging
| MsgOutput (path : string)
| MsgBlank
| MsgRuleAfterBlank
| MsgSuccessAt
| MsgPath (path : string)
| MsgToFlash
| MsgFlashCommand
| MsgFileSize (bytes : nat)
| MsgCannotImport
| MsgTrying
| MsgSuccess
| MsgFailed
| MsgCannotFind
| MsgPython (path : string)
| MsgEsptool (path : string)
| MsgError
| MsgTraceback.

Inductive event : Type :=
| Print (m : message)
| CallMain (args : list string)
| Run (cmd : list string).

(** How the process ends: the end of the script, [sys.exit(1)], a
    [SystemExit] of the tool passing through, or an exception nothing
    catches. *)
Inductive outcome : Type :=
| Finished
| Exit1
| ToolExit (code : Z)
| Uncaught.

Definition build_dir : string :=
  "f:\kikichatwiath_ai-fwlenwed\kikichatwiath_ai-master\build".

Definition merged_file : string := build_dir ++ "\kiki_merged_flash.bin".

(** Lines 24-36. *)
Definition args : list string :=
  ["--chip"; "esp32s3"; "merge_bin"; "-o"; "kiki_merged_flash.bin";
   "--flash_mode"; "dio"; "--flash_freq"; "80m"; "--flash_size"; "16MB";
   "0x0"; "bootloader/bootloader.bin";
   "0x8000"; "partition_table/partition-table.bin";
   "0xd000"; "ota_data_initial.bin";
   "0x20000"; "xiaozhi.bin";
   "0x800000"; "generated_assets.bin"].

Definition python_exe : string :=
  "C:\Espressif\python_env\idf5.5_py3.14_env\Scripts\python.exe".

Definition esptool_script : string :=
  "C:\Espressif\python_env\idf5.5_py3.14_env\Scripts\esptool.py".

(** Lines 70-84. *)
Definition cmd : list string :=
  [python_exe; esptool_script;
   "--chip"; "esp32s3"; "merge_bin"; "-o"; "kiki_merged_flash.bin";
   "--flash_mode"; "dio"; "--flash_freq"; "80m"; "--flash_size"; "16MB";
   "0x0"; "bootloader/bootloader.bin";
   "0x8000"; "partition_table/partition-table.bin";
   "0xd000"; "ota_data_initial.bin";
   "0x20000"; "xiaozhi.bin";
   "0x800000"; "generated_assets.bin"].

(** The [except ImportError] handler (lines 59-99), entered with the
    log so far. *)
Definition on_import_error (w : world) (log : list event)
  : outcome * list event :=
  let log := (log ++ [Print MsgCannotImport; Print MsgTrying])%list in
  if path_exists w python_exe && path_exists w esptool_script then
    match subprocess_run w cmd with
    | None => (Uncaught, log ++ [Run cmd])%list
    | Some returncode =>
        if Z.eqb returncode 0
        then (Finished,
              log ++ [Run cmd; Print MsgRuleAfterBlank; Print MsgSuccess;
                      Print MsgRule])%list
        else (Exit1, log ++ [Run cmd; Print MsgFailed])%list
    end
  else
    (Exit1,
     log ++ [Print MsgCannotFind; Print (MsgPython python_exe);
             Print (MsgEsptool esptool_script)])%list.

(** The whole script. *)
Definition script (w : world) : outcome * list event :=
  let banner := [Print MsgRule; Print MsgTitle; Print MsgRule] in
  if negb (chdir_ok w) then (Uncaught, banner)
  else if negb (import_ok w) then on_import_error w banner
  else
    let log :=
      (banner ++ [Print MsgMerging; Print (MsgOutput merged_file);
                  Print MsgBlank; CallMain args])%list in
    match esptool_main w args with
    | Returns =>
        let log :=
          (log ++ [Print MsgRuleAfterBlank; Print MsgSuccessAt;
                   Print (MsgPath merged_file); Print MsgRule;
                   Print MsgToFlash; Print MsgFlashCommand; Print MsgBlank])%list in
        if path_exists w merged_file
        then (Finished, log ++ [Print (MsgFileSize (getsize w merged_file))])%list
        else (Finished, log)
    | RaisesImportError => on_import_error w log
    | RaisesException => (Exit1, log ++ [Print MsgError; Print MsgTraceback])%list
    | RaisesSystemExit code => (ToolExit code, log)
    end.

(** The invocations of the merge tool in a log. *)
Fixpoint invocations (log : list event) : list event :=
  match log with
  | [] => []
  | Print _ :: rest => invocations rest
  | e :: rest => e :: invocations rest
  end.

(** The tool's arguments in an invocation: for a subprocess, what
    follows the interpreter and the script. *)
Definition tool_args (e : event) : list string :=
  match e with
  | CallMain a => a
  | Run c => skipn 2 c
  | Print _ => []
  end.

Definition is_run (e : event) : bool :=
  match e with Run _ => true | _ => false end.

(** [esptool] is missing and so are the fallback tools. *)
Definition w_no_tools : world :=
  {| chdir_ok := true; import_ok := false;
     esptool_main := fun _ => Returns;
     path_exists := fun _ => false;
     getsize := fun _ => 0;
     subprocess_run := fun _ => Some 0%Z |}.

(** [esptool] imports, then fails on an import of its own; the fallback
    tools are there. *)
Definition w_late_import_error : world :=
  {| chdir_ok := true; import_ok := true;
     esptool_main := fun _ => RaisesImportError;
     path_exists := fun _ => true;
     getsize := fun _ => 0;
     subprocess_run := fun _ => Some 0%Z |}.

End MergedBin.

(** * Properties *)

(** ** Strings *)

Section Strings.

Variable c : ascii.

Lemma split_length (s : string) :
  List.length (PyStr.split c s) = S (PyStr.count c s).
Proof.
  induction s as [|d s IH]; simpl; [reflexivity|].
  destruct (Ascii.eqb d c); simpl.
  - now rewrite IH.
  - destruct (PyStr.split c s) as [|p ps] eqn:E; simpl in *; [discriminate|lia].
Qed.

Lemma split_no_sep (s : string) :
  PyStr.count c s = 0 -> PyStr.split c s = [s].
Proof.
  induction s as [|d s IH]; simpl; [reflexivity|].
  destruct (Ascii.eqb d c); simpl; [discriminate|].
  intros H. now rewrite (IH H).
Qed.

Lemma split_at_sep (a b : string) :
  PyStr.count c a = 0 ->
  PyStr.split c (a ++ String c b) = a :: PyStr.split c b.
Proof.
  induction a as [|d a IH]; simpl.
  - intros _. now rewrite Ascii.eqb_refl.
  - destruct (Ascii.eqb d c); simpl; [discriminate|].
    intros H. now rewrite (IH H).
Qed.

(** Element 1 of the split is what stands between the first two
    separators. *)
Lemma split_second (a v b : string) :
  PyStr.count c a = 0 -> PyStr.count c v = 0 ->
  nth_error (PyStr.split c (a ++ String c (v ++ String c b))) 1 = Some v.
Proof.
  intros Ha Hv. rewrite (split_at_sep _ _ Ha), (split_at_sep _ _ Hv).
  reflexivity.
Qed.

(** With a single separator, element 1 is everything after it. *)
Lemma split_second_open (a v : string) :
  PyStr.count c a = 0 -> PyStr.count c v = 0 ->
  nth_error (PyStr.split c (a ++ String c v)) 1 = Some v.
Proof.
  intros Ha Hv. rewrite (split_at_sep _ _ Ha), (split_no_sep _ Hv).
  reflexivity.
Qed.

Lemma split_second_none (s : string) :
  nth_error (PyStr.split c s) 1 = None <-> PyStr.count c s = 0.
Proof.
  rewrite nth_error_None, split_length. lia.
Qed.

End Strings.

(** ** Resolving the version *)

Section Version.

Variable w : world.

Lemma scan_lines_log (ls : list string) (tr : trace) :
  scan_lines ls w tr = (fst (scan_lines ls w []), tr).
Proof.
  induction ls as [|l ls IH]; cbn [scan_lines]; [reflexivity|].
  destruct (PyStr.startswith l marker); [|exact IH].
  destruct (nth_error (PyStr.split quote l) 1); reflexivity.
Qed.

(** Reading the version leaves the log as it was. *)
Lemma get_project_version_log (tr : trace) :
  get_project_version w tr = (version_of w, tr).
Proof.
  unfold version_of, get_project_version, bind, stat.
  destruct (fs w "CMakeLists.txt") as [[content|n]|]; try reflexivity.
  apply scan_lines_log.
Qed.

Lemma scan_lines_skip (pre rest : list string) (tr : trace) :
  no_marker pre -> scan_lines (pre ++ rest)%list w tr = scan_lines rest w tr.
Proof.
  induction 1 as [|l pre Hl _ IH]; cbn [scan_lines app]; [reflexivity|].
  now rewrite Hl.
Qed.

Lemma scan_lines_none (ls : list string) (tr : trace) :
  no_marker ls -> scan_lines ls w tr = (Ret None, tr).
Proof.
  intros H. rewrite <- (app_nil_r ls), (scan_lines_skip _ _ _ H). reflexivity.
Qed.

(** The first marker line decides. *)
Lemma scan_lines_first (pre post : list string) (l : string) (tr : trace) :
  no_marker pre -> PyStr.startswith l marker = true ->
  scan_lines (pre ++ l :: post)%list w tr =
  (match nth_error (PyStr.split quote l) 1 with
   | Some v => Ret (Some v)
   | None => Raise IndexError
   end, tr).
Proof.
  intros Hpre Hl. rewrite (scan_lines_skip _ _ _ Hpre). cbn [scan_lines].
  rewrite Hl.
  destruct (nth_error (PyStr.split quote l) 1); reflexivity.
Qed.

Lemma version_absent :
  fs w "CMakeLists.txt" = None -> version_of w = Ret None.
Proof.
  intros H. unfold version_of, get_project_version, bind, stat. now rewrite H.
Qed.

Lemma version_no_marker (content : string) :
  fs w "CMakeLists.txt" = Some (File content) ->
  no_marker (PyStr.readlines content) ->
  version_of w = Ret None.
Proof.
  intros H Hn. unfold version_of, get_project_version, bind, stat. rewrite H.
  now rewrite (scan_lines_none _ _ Hn).
Qed.

Lemma version_first (content : string) (pre post : list string) (l : string) :
  fs w "CMakeLists.txt" = Some (File content) ->
  PyStr.readlines content = (pre ++ l :: post)%list ->
  no_marker pre -> PyStr.startswith l marker = true ->
  version_of w =
  match nth_error (PyStr.split quote l) 1 with
  | Some v => Ret (Some v)
  | None => Raise IndexError
  end.
Proof.
  intros H Hl Hpre Hm. unfold version_of, get_project_version, bind, stat.
  rewrite H, Hl, (scan_lines_first _ _ _ _ Hpre Hm). reflexivity.
Qed.

End Version.

(** ** The stages of a run *)

Section Stages.

Variable w : world.
Variable args : Args.

Lemma opt_truthy_some (o : option string) :
  opt_truthy o = true -> exists s, o = Some s /\ PyStr.truthy s = true.
Proof.
  destruct o as [s|]; simpl; [eauto|discriminate].
Qed.

(** Stage 1: without a token nothing else happens. *)
Lemma run_no_token :
  opt_truthy (resolve_token w args) = false ->
  run w args = (SysExit AuthError, auth_log).
Proof.
  unfold run, main, resolve_token, bind, getenv.
  destruct (str_or (token args) (environ w "GITHUB_TOKEN")) as [t|];
    cbn [opt_truthy]; intros H; [rewrite H|]; reflexivity.
Qed.

Lemma run_with_token (tok : string) :
  resolve_token w args = Some tok -> PyStr.truthy tok = true ->
  run w args =
  match version_of w with
  | Ret None => (SysExit ConfigError, [Print MsgNoVersion])
  | Ret (Some version) =>
      if PyStr.truthy version then
        match fs w (select_file args version) with
        | None => (SysExit InputError,
                   [Print (MsgFileNotFound (select_file args version))])
        | Some _ => publish tok version (select_tag args version)
                      (select_file args version) w []
        end
      else (SysExit ConfigError, [Print MsgNoVersion])
  | SysExit f => (SysExit f, [])
  | Raise e => (Raise e, [])
  end.
Proof.
  unfold resolve_token. intros Htok Ht.
  unfold run, main, bind at 1, getenv. rewrite Htok, Ht. cbn [negb].
  unfold bind at 1. rewrite get_project_version_log.
  destruct (version_of w) as [[v|]|f|e]; try reflexivity.
  destruct (PyStr.truthy v); [|reflexivity]. cbn [negb].
  unfold bind at 1, stat.
  destruct (fs w (select_file args v)); reflexivity.
Qed.

(** Stage 2: with a token but no version, the file is not looked at. *)
Lemma run_no_version (tok : string) :
  resolve_token w args = Some tok -> PyStr.truthy tok = true ->
  version_of w = Ret None \/ version_of w = Ret (Some EmptyString) ->
  run w args = (SysExit ConfigError, [Print MsgNoVersion]).
Proof.
  intros Htok Ht Hv. rewrite (run_with_token _ Htok Ht).
  destruct Hv as [-> | ->]; reflexivity.
Qed.

Lemma run_version_raises (tok : string) (e : exn) :
  resolve_token w args = Some tok -> PyStr.truthy tok = true ->
  version_of w = Raise e ->
  run w args = (Raise e, []).
Proof.
  intros Htok Ht Hv. rewrite (run_with_token _ Htok Ht), Hv. reflexivity.
Qed.

(** Stage 3: with token and version, a missing file stops the run. *)
Lemma run_missing_file (tok version : string) :
  resolve_token w args = Some tok -> PyStr.truthy tok = true ->
  version_of w = Ret (Some version) -> PyStr.truthy version = true ->
  fs w (select_file args version) = None ->
  run w args =
  (SysExit InputError, [Print (MsgFileNotFound (select_file args version))]).
Proof.
  intros Htok Ht Hv Hvt Hf.
  rewrite (run_with_token _ Htok Ht), Hv, Hvt, Hf. reflexivity.
Qed.

(** Stages 4 and 5: release, then upload. *)
Lemma run_publish (tok version : string) (e : entry) :
  resolve_token w args = Some tok -> PyStr.truthy tok = true ->
  version_of w = Ret (Some version) -> PyStr.truthy version = true ->
  fs w (select_file args version) = Some e ->
  run w args =
  publish tok version (select_tag args version) (select_file args version) w [].
Proof.
  intros Htok Ht Hv Hvt Hf.
  rewrite (run_with_token _ Htok Ht), Hv, Hvt, Hf. reflexivity.
Qed.

End Stages.

(** ** Requests sent by the two service operations *)

Lemma requests_of_app (a b : trace) :
  requests_of (a ++ b)%list = (requests_of a ++ requests_of b)%list.
Proof.
  induction a as [|[m|r] a IH]; cbn [requests_of app]; [reflexivity|exact IH|].
  now rewrite IH.
Qed.

Section Operations.

Variable w : world.
Variables tok version tag_name : string.

Lemma create_release_transport (tr : trace) :
  lookup_response w tok tag_name tr = None ->
  create_release tok version (Some tag_name) w tr =
  (Raise RequestException, tr ++ [Send (lookup_request tok tag_name)])%list.
Proof.
  unfold lookup_response, create_release, bind at 1, send. intros ->.
  reflexivity.
Qed.

(** Lookup answered 200: the record is the parsed answer, nothing is
    created. *)
Lemma create_release_exists (tr : trace) (r : response) :
  lookup_response w tok tag_name tr = Some r -> status_code r = 200%Z ->
  create_release tok version (Some tag_name) w tr =
  (parsed r, tr ++ [Send (lookup_request tok tag_name); Print (MsgReleaseExists tag_name)])%list.
Proof.
  unfold lookup_response, create_release, bind at 1, send. intros -> ->.
  cbn [Z.eqb Pos.eqb]. unfold bind, print, parse_json, parsed, ret, raise.
  rewrite <- app_assoc. destruct (json r); reflexivity.
Qed.

(** Lookup answered anything else: the creation request follows. *)
Lemma create_release_absent (tr : trace) (r : response) :
  lookup_response w tok tag_name tr = Some r -> status_code r <> 200%Z ->
  create_release tok version (Some tag_name) w tr =
  match creation_response w tok tag_name tr with
  | None => (Raise RequestException, tr ++ [Send (lookup_request tok tag_name); Send (creation_request tok tag_name)])%list
  | Some r' =>
      if Z.eqb (status_code r') 201
      then (parsed r', tr ++ [Send (lookup_request tok tag_name); Send (creation_request tok tag_name); Print (MsgCreated tag_name)])%list
      else (Ret VNone,
            tr ++ [Send (lookup_request tok tag_name); Send (creation_request tok tag_name); Print (MsgCreateFailed (status_code r'));
                   Print (MsgText (text r'))])%list
  end.
Proof.
  unfold lookup_response, creation_response, create_release, bind at 1, send.
  intros -> Hs. apply Z.eqb_neq in Hs. rewrite Hs.
  unfold bind at 1.
  destruct (service w (tr ++ [Send (lookup_request tok tag_name)])%list
              (creation_request tok tag_name)) as [r'|].
  - destruct (Z.eqb (status_code r') 201); cbn [negb];
      unfold bind, print, parse_json, parsed, ret, raise;
      rewrite <- !app_assoc; [destruct (json r')|]; reflexivity.
  - rewrite <- app_assoc. reflexivity.
Qed.

(** [upload_asset] on each kind of path. *)
Lemma upload_asset_missing (tr : trace) (release_id : value) (path : string) :
  fs w path = None ->
  upload_asset tok release_id path w tr = (Raise FileNotFoundError, tr).
Proof.
  unfold upload_asset, bind, stat. intros ->. reflexivity.
Qed.

Lemma upload_asset_dir (tr : trace) (release_id : value) (path : string) (n : nat) :
  fs w path = Some (Dir n) ->
  upload_asset tok release_id path w tr =
  (Raise IsADirectoryError,
   tr ++ [Print (MsgUploading (PyStr.basename path) n)])%list.
Proof.
  unfold upload_asset, bind, stat. intros ->. reflexivity.
Qed.

Lemma upload_asset_file (tr : trace) (release_id : value) (path content : string) :
  fs w path = Some (File content) ->
  let name := PyStr.basename path in
  let U := upload_request tok release_id path content in
  let tr1 := (tr ++ [Print (MsgUploading name (String.length content))])%list in
  upload_asset tok release_id path w tr =
  match service w tr1 U with
  | None => (Raise RequestException, tr1 ++ [Send U])%list
  | Some r =>
      if Z.eqb (status_code r) 201
      then (Ret true, tr1 ++ [Send U; Print (MsgUploaded name)])%list
      else (Ret false,
            tr1 ++ [Send U; Print (MsgUploadFailed (status_code r));
                    Print (MsgText (text r))])%list
  end.
Proof.
  unfold upload_asset, upload_request, bind at 1, stat. intros ->.
  cbv zeta. unfold bind at 1, print. unfold bind at 1, send.
  destruct (service _ _ _) as [r|]; [|reflexivity].
  destruct (Z.eqb (status_code r) 201);
    unfold bind, print, ret; rewrite <- !app_assoc; reflexivity.
Qed.

End Operations.

(** ** The requests of a whole run *)

Lemma publish_extends (w : world) (tok version tag_name file_path : string)
    (tr : trace) :
  exists evs,
    snd (publish tok version tag_name file_path w tr) = (tr ++ evs)%list /\
    publish_requests w tok tag_name file_path (requests_of evs).
Proof.
  unfold publish, create_release, upload_asset, bind, send, print, stat,
    parse_json, subscript, ret, raise, sys_exit.
  repeat split_match;
    cbn [snd]; rewrite <- ?app_assoc; cbn [app];
    (eexists; split; [reflexivity|]); cbn [requests_of];
    first [ apply pr_lookup | apply pr_create
          | apply pr_upload; assumption | apply pr_create_upload; assumption ].
Qed.

(** Every run either sends nothing, or has a token, a version and a file
    and sends one of the sequences above. *)
Lemma run_requests (w : world) (args : Args) :
  requests_of (snd (run w args)) = [] \/
  exists tok version,
    resolve_token w args = Some tok /\ PyStr.truthy tok = true /\
    version_of w = Ret (Some version) /\ PyStr.truthy version = true /\
    publish_requests w tok (select_tag args version) (select_file args version)
      (requests_of (snd (run w args))).
Proof.
  destruct (opt_truthy (resolve_token w args)) eqn:Ht.
  - apply opt_truthy_some in Ht. destruct Ht as (tok & Htok & Ht).
    rewrite (run_with_token _ _ _ Htok Ht).
    destruct (version_of w) as [[v|]|f|e] eqn:Hv; try (left; reflexivity).
    destruct (PyStr.truthy v) eqn:Hvt; [|left; reflexivity].
    destruct (fs w (select_file args v)) eqn:Hf; [|left; reflexivity].
    right. exists tok, v. repeat split; try assumption.
    destruct (publish_extends w tok v (select_tag args v) (select_file args v) [])
      as (evs & -> & Hp).
    exact Hp.
  - left. now rewrite (run_no_token _ _ Ht).
Qed.

(** * The claims *)

(** ** Version resolution *)

(** C3.  [get_project_version] returns [None] when [CMakeLists.txt] is
    absent and when none of its lines starts with the marker, and [main]
    then exits with the configuration error; when the first line that
    starts with the marker reads [a "v" b], with no quote in [a] or [v],
    the function returns exactly [v].  The log is untouched in each
    case. *)
Theorem resolve_version_first_quoted (w : world) :
  (fs w "CMakeLists.txt" = None ->
   forall tr, get_project_version w tr = (Ret None, tr)) /\
  (forall content,
     fs w "CMakeLists.txt" = Some (File content) ->
     no_marker (PyStr.readlines content) ->
     forall tr, get_project_version w tr = (Ret None, tr)) /\
  (forall args tok,
     resolve_token w args = Some tok -> PyStr.truthy tok = true ->
     version_of w = Ret None ->
     run w args = (SysExit ConfigError, [Print MsgNoVersion])) /\
  (forall content pre post a v b,
     fs w "CMakeLists.txt" = Some (File content) ->
     PyStr.readlines content = (pre ++ quoted_line a v b :: post)%list ->
     no_marker pre ->
     PyStr.startswith (quoted_line a v b) marker = true ->
     PyStr.count quote a = 0 -> PyStr.count quote v = 0 ->
     forall tr, get_project_version w tr = (Ret (Some v), tr)).
Proof.
  repeat split.
  - intros H tr. now rewrite get_project_version_log, (version_absent _ H).
  - intros content H Hn tr.
    now rewrite get_project_version_log, (version_no_marker _ _ H Hn).
  - intros args tok Htok Ht Hv. apply (run_no_version _ _ _ Htok Ht). now left.
  - intros content pre post a v b H Hl Hpre Hm Ha Hv tr.
    rewrite get_project_version_log, (version_first _ _ _ _ _ H Hl Hpre Hm).
    unfold quoted_line. now rewrite (split_second _ _ _ _ Ha Hv).
Qed.

Lemma resolve_version_first_quoted_witness :
  get_project_version w_no_cmake [] = (Ret None, []) /\
  get_project_version w_plain [] = (Ret None, []) /\
  run w_no_cmake no_args = (SysExit ConfigError, [Print MsgNoVersion]) /\
  get_project_version w_fresh [] = (Ret (Some "2.1.0"), []).
Proof.
  destruct (resolve_version_first_quoted w_no_cmake) as (Habs & _ & Hcfg & _).
  destruct (resolve_version_first_quoted w_plain) as (_ & Hplain & _ & _).
  destruct (resolve_version_first_quoted w_fresh) as (_ & _ & _ & Hval).
  split; [apply Habs; reflexivity|].
  split; [apply (Hplain cmake_plain); [reflexivity|repeat constructor]|].
  split; [apply (Hcfg no_args "secret"); reflexivity|].
  apply (Hval cmake_210 ["cmake_minimum_required(VERSION 3.16)" ++ nl]
           ["project(kiki)" ++ nl] "set(PROJECT_VER " "2.1.0" (")" ++ nl));
    try reflexivity.
  repeat constructor.
Defined.

(** The first thing [publish] does is send the lookup. *)
Lemma publish_starts_with_lookup (w : world)
    (tok version tag_name file_path : string) (tr : trace) :
  exists evs,
    snd (publish tok version tag_name file_path w tr)
    = (tr ++ Send (lookup_request tok tag_name) :: evs)%list.
Proof.
  unfold publish, create_release, upload_asset, bind, send, print, stat,
    parse_json, subscript, ret, raise, sys_exit.
  repeat split_match;
    cbn [snd]; rewrite <- ?app_assoc; cbn [app]; eexists; reflexivity.
Qed.

(** C9 as the code has it.  When the first line that starts with the
    marker is [l], [get_project_version] raises [IndexError] exactly
    when [l] holds no double quote, and [main] lets the exception
    through; a line with a single quote returns what follows the
    quote. *)
Theorem marker_line_without_quote_raises (w : world) (content : string)
    (pre post : list string) (l : string) :
  fs w "CMakeLists.txt" = Some (File content) ->
  PyStr.readlines content = (pre ++ l :: post)%list ->
  no_marker pre ->
  PyStr.startswith l marker = true ->
  (get_project_version w [] = (Raise IndexError, [])
   <-> PyStr.count quote l = 0) /\
  (PyStr.count quote l = 0 ->
   forall args tok,
     resolve_token w args = Some tok -> PyStr.truthy tok = true ->
     run w args = (Raise IndexError, [])) /\
  (forall a v,
     l = a ++ String quote v ->
     PyStr.count quote a = 0 -> PyStr.count quote v = 0 ->
     get_project_version w [] = (Ret (Some v), [])).
Proof.
  intros H Hl Hpre Hm.
  pose proof (version_first _ _ _ _ _ H Hl Hpre Hm) as Hv.
  rewrite get_project_version_log.
  split; [|split].
  - rewrite Hv, <- split_second_none.
    destruct (nth_error (PyStr.split quote l) 1); split;
      intros E; try reflexivity; discriminate E.
  - intros Hc args tok Htok Ht. apply (run_version_raises _ _ _ _ Htok Ht).
    rewrite Hv. apply split_second_none in Hc. now rewrite Hc.
  - intros a v -> Ha Hc. rewrite Hv.
    now rewrite (split_second_open _ _ _ Ha Hc).
Qed.

Lemma marker_line_without_quote_raises_witness :
  (get_project_version w_bare [] = (Raise IndexError, [])
   <-> PyStr.count quote ("set(PROJECT_VER 2.1.0)" ++ nl) = 0) /\
  run w_bare no_args = (Raise IndexError, []) /\
  get_project_version w_open_quote [] = (Ret (Some ("2.1.0)" ++ nl)), []).
Proof.
  destruct (marker_line_without_quote_raises w_bare cmake_bare []
              ["project(kiki)" ++ nl] ("set(PROJECT_VER 2.1.0)" ++ nl)
              eq_refl eq_refl (Forall_nil _) eq_refl)
    as (Hiff & Hrun & _).
  destruct (marker_line_without_quote_raises w_open_quote cmake_open_quote []
              ["project(kiki)" ++ nl] ("set(PROJECT_VER " ++ q ++ "2.1.0)" ++ nl)
              eq_refl eq_refl (Forall_nil _) eq_refl)
    as (_ & _ & Hone).
  split; [exact Hiff|]. split.
  - exact (Hrun eq_refl no_args "secret" eq_refl eq_refl).
  - exact (Hone "set(PROJECT_VER " ("2.1.0)" ++ nl) eq_refl eq_refl eq_refl).
Defined.

(** C9 as written fails: a marker line with one double quote, fewer
    than two, makes [get_project_version] return the rest of the line. *)
Lemma single_quote_returns_rest_of_line :
  fs w_open_quote "CMakeLists.txt" = Some (File cmake_open_quote) /\
  hd_error (PyStr.readlines cmake_open_quote)
    = Some ("set(PROJECT_VER " ++ q ++ "2.1.0)" ++ nl) /\
  PyStr.startswith ("set(PROJECT_VER " ++ q ++ "2.1.0)" ++ nl) marker = true /\
  PyStr.count quote ("set(PROJECT_VER " ++ q ++ "2.1.0)" ++ nl) < 2 /\
  get_project_version w_open_quote [] = (Ret (Some ("2.1.0)" ++ nl)), []) /\
  get_project_version w_open_quote [] <> (Raise IndexError, []).
Proof.
  repeat split; try reflexivity.
  - vm_compute. lia.
  - vm_compute. discriminate.
Qed.

(** C7.  When the first line of [CMakeLists.txt] that starts with the
    marker is [set(PROJECT_VER "2.1.0")] and no [--tag] is given, the
    version is 2.1.0, the tag is v2.1.0 and the default asset path is
    releases/v2.1.0_kiki.zip; a run with a token and neither [--file]
    nor [--merged-bin] checks that path and then looks up that tag. *)
Theorem scenario_2_1_0 (w : world) (args : Args) (content : string)
    (pre post : list string) (rest : string) :
  fs w "CMakeLists.txt" = Some (File content) ->
  PyStr.readlines content
    = (pre ++ quoted_line "set(PROJECT_VER " "2.1.0" rest :: post)%list ->
  no_marker pre ->
  tag args = None ->
  get_project_version w [] = (Ret (Some "2.1.0"), []) /\
  select_tag args "2.1.0" = "v2.1.0" /\
  (merged_bin args = false -> file args = None ->
   select_file args "2.1.0" = "releases/v2.1.0_kiki.zip") /\
  (forall tok,
     resolve_token w args = Some tok -> PyStr.truthy tok = true ->
     merged_bin args = false -> file args = None ->
     match fs w "releases/v2.1.0_kiki.zip" with
     | None =>
         run w args
         = (SysExit InputError,
            [Print (MsgFileNotFound "releases/v2.1.0_kiki.zip")])
     | Some _ =>
         hd_error (requests_of (snd (run w args)))
         = Some (lookup_request tok "v2.1.0")
     end).
Proof.
  intros H Hl Hpre Htag.
  assert (Hv : version_of w = Ret (Some "2.1.0")).
  { rewrite (version_first _ _ _ _ _ H Hl Hpre eq_refl). unfold quoted_line.
    now rewrite split_second. }
  assert (Hsel : merged_bin args = false -> file args = None ->
                 select_file args "2.1.0" = "releases/v2.1.0_kiki.zip").
  { intros Hm Hf. unfold select_file. now rewrite Hm, Hf. }
  assert (Ht : select_tag args "2.1.0" = "v2.1.0").
  { unfold select_tag. now rewrite Htag. }
  split; [now rewrite get_project_version_log, Hv|].
  split; [exact Ht|]. split; [exact Hsel|].
  intros tok Htok Htt Hm Hf.
  rewrite (run_with_token _ _ _ Htok Htt), Hv. cbn [PyStr.truthy].
  rewrite (Hsel Hm Hf), Ht.
  destruct (fs w "releases/v2.1.0_kiki.zip"); [|reflexivity].
  destruct (publish_starts_with_lookup w tok "2.1.0" "v2.1.0"
              "releases/v2.1.0_kiki.zip" []) as (evs & ->).
  reflexivity.
Qed.

Lemma scenario_2_1_0_witness :
  get_project_version w_fresh [] = (Ret (Some "2.1.0"), []) /\
  select_tag no_args "2.1.0" = "v2.1.0" /\
  select_file no_args "2.1.0" = "releases/v2.1.0_kiki.zip" /\
  hd_error (requests_of (snd (run w_fresh no_args)))
  = Some (lookup_request "secret" "v2.1.0").
Proof.
  destruct (scenario_2_1_0 w_fresh no_args cmake_210
              ["cmake_minimum_required(VERSION 3.16)" ++ nl]
              ["project(kiki)" ++ nl] (")" ++ nl))
    as (Hv & Ht & Hf & Hrun); try reflexivity.
  - repeat constructor.
  - split; [exact Hv|]. split; [exact Ht|].
    split; [apply Hf; reflexivity|].
    apply (Hrun "secret"); reflexivity.
Defined.

(** ** Choice of the file *)

(** Every upload of a run carries the selected file as it is on disk,
    under the resolved token. *)
Lemma run_uploads_selected_file (w : world) (args : Args) (r : request) :
  In r (requests_of (snd (run w args))) -> is_upload r = true ->
  exists tok version release_id content,
    resolve_token w args = Some tok /\
    version_of w = Ret (Some version) /\
    fs w (select_file args version) = Some (File content) /\
    r = upload_request tok release_id (select_file args version) content.
Proof.
  intros Hin Hup.
  destruct (run_requests w args) as [E | (tok & v & Htok & _ & Hv & _ & Hp)].
  - rewrite E in Hin. destruct Hin.
  - inversion Hp as [E | E | id c Hf E | id c Hf E]; rewrite <- E in Hin;
      cbn [In] in Hin;
      repeat match goal with
             | H : _ \/ _ |- _ => destruct H as [H | H]
             | H : False |- _ => destruct H
             end;
      subst r; try discriminate Hup;
      exists tok, v, id, c; repeat split; assumption.
Qed.

(** C1 as the code has it.  With both [--file] and [--merged-bin] on
    the command line, the selected path is build/merged-binary.bin for
    every version, and any upload of the run sends that file. *)
Theorem merged_bin_takes_precedence (w : world) (args : Args) (p : string) :
  file args = Some p -> merged_bin args = true ->
  (forall version, select_file args version = "build/merged-binary.bin") /\
  (forall r,
     In r (requests_of (snd (run w args))) -> is_upload r = true ->
     exists tok release_id content,
       fs w "build/merged-binary.bin" = Some (File content) /\
       r = upload_request tok release_id "build/merged-binary.bin" content).
Proof.
  intros _ Hm.
  assert (Hsel : forall version,
             select_file args version = "build/merged-binary.bin").
  { intros version. unfold select_file. now rewrite Hm. }
  split; [exact Hsel|].
  intros r Hin Hup.
  destruct (run_uploads_selected_file _ _ _ Hin Hup)
    as (tok & v & id & c & _ & _ & Hf & Hr).
  rewrite Hsel in Hf, Hr. now exists tok, id, c.
Qed.

Lemma merged_bin_takes_precedence_witness :
  file both_args = Some "fw.zip" /\ merged_bin both_args = true /\
  select_file both_args "2.1.0" = "build/merged-binary.bin".
Proof.
  split; [reflexivity|]. split; [reflexivity|].
  exact (proj1 (merged_bin_takes_precedence w_fresh both_args "fw.zip"
                  eq_refl eq_refl) "2.1.0").
Defined.

(** C1 as written fails: with [--file fw.zip --merged-bin] the selected
    path is not fw.zip, and the run uploads the merged binary. *)
Lemma file_does_not_win_over_merged_bin :
  file both_args = Some "fw.zip" /\ merged_bin both_args = true /\
  select_file both_args "2.1.0" = "build/merged-binary.bin" /\
  select_file both_args "2.1.0" <> "fw.zip" /\
  requests_of (snd (run w_fresh both_args))
  = [lookup_request "secret" "v2.1.0"; creation_request "secret" "v2.1.0";
     upload_request "secret" (VInt 7) "build/merged-binary.bin" "MERGED"].
Proof.
  repeat split; try reflexivity.
  vm_compute. discriminate.
Qed.

(** Without [--merged-bin], a non-empty [--file] is the selected path. *)
Lemma file_selected_without_merged_bin (args : Args) (p version : string) :
  merged_bin args = false -> file args = Some p -> PyStr.truthy p = true ->
  select_file args version = p.
Proof.
  intros Hm Hf Hp. unfold select_file. rewrite Hm, Hf. cbn [opt_truthy].
  now rewrite Hp.
Qed.

(** ** Order of the steps *)

(** C2 as the code has it.  [main] resolves the token first, then the
    version, then the file, and only then talks to the service: a
    missing token ends the run whatever the version and the file are; a
    missing version ends it whatever the file is; a missing file ends it
    before any request; otherwise the requests are the lookup, then at
    most one creation, then at most one upload. *)
Theorem main_order (w : world) (args : Args) :
  (opt_truthy (resolve_token w args) = false ->
   run w args = (SysExit AuthError, auth_log)) /\
  (forall tok,
     resolve_token w args = Some tok -> PyStr.truthy tok = true ->
     version_of w = Ret None \/ version_of w = Ret (Some EmptyString) ->
     run w args = (SysExit ConfigError, [Print MsgNoVersion])) /\
  (forall tok version,
     resolve_token w args = Some tok -> PyStr.truthy tok = true ->
     version_of w = Ret (Some version) -> PyStr.truthy version = true ->
     fs w (select_file args version) = None ->
     run w args
     = (SysExit InputError,
        [Print (MsgFileNotFound (select_file args version))])) /\
  (forall tok version e,
     resolve_token w args = Some tok -> PyStr.truthy tok = true ->
     version_of w = Ret (Some version) -> PyStr.truthy version = true ->
     fs w (select_file args version) = Some e ->
     publish_requests w tok (select_tag args version)
       (select_file args version) (requests_of (snd (run w args)))).
Proof.
  split; [apply run_no_token|].
  split; [apply run_no_version|].
  split; [apply run_missing_file|].
  intros tok v e Htok Ht Hv Hvt Hf.
  rewrite (run_publish _ _ _ _ _ Htok Ht Hv Hvt Hf).
  destruct (publish_extends w tok v (select_tag args v) (select_file args v) [])
    as (evs & -> & Hp).
  exact Hp.
Qed.

Lemma main_order_witness :
  run w_nothing no_args = (SysExit AuthError, auth_log) /\
  run w_no_cmake no_args = (SysExit ConfigError, [Print MsgNoVersion]) /\
  run w_no_asset no_args
  = (SysExit InputError, [Print (MsgFileNotFound "releases/v2.1.0_kiki.zip")]) /\
  publish_requests w_fresh "secret" "v2.1.0" "releases/v2.1.0_kiki.zip"
    (requests_of (snd (run w_fresh no_args))).
Proof.
  destruct (main_order w_nothing no_args) as (Hauth & _).
  destruct (main_order w_no_cmake no_args) as (_ & Hcfg & _).
  destruct (main_order w_no_asset no_args) as (_ & _ & Hin & _).
  destruct (main_order w_fresh no_args) as (_ & _ & _ & Hpub).
  split; [apply Hauth; reflexivity|].
  split; [apply (Hcfg "secret"); [reflexivity|reflexivity|left; reflexivity]|].
  split; [apply (Hin "secret" "2.1.0"); reflexivity|].
  apply (Hpub "secret" "2.1.0" (File "ZIP")); reflexivity.
Defined.

(** C2 as written fails: with neither a token nor the asset file, the
    run ends with the token error, not with the file error. *)
Lemma missing_token_reported_before_missing_file :
  resolve_token w_nothing no_args = None /\
  version_of w_nothing = Ret (Some "2.1.0") /\
  fs w_nothing (select_file no_args "2.1.0") = None /\
  run w_nothing no_args = (SysExit AuthError, auth_log) /\
  fst (run w_nothing no_args) <> SysExit InputError.
Proof.
  repeat split; try reflexivity.
  vm_compute. discriminate.
Qed.

(** ** Ensuring the release *)

(** A run that finds the release and has the file on disk sends the
    lookup and then the upload to the release it found. *)
Lemma publish_existing (w : world) (tok version tag_name path content : string)
    (r : response) (items : list (string * value)) (release_id : value) :
  fs w path = Some (File content) ->
  lookup_response w tok tag_name [] = Some r -> status_code r = 200%Z ->
  json r = Some (VDict items) -> dict_get "id" items = Some release_id ->
  requests_of (snd (publish tok version tag_name path w []))
  = [lookup_request tok tag_name; upload_request tok release_id path content].
Proof.
  intros Hf Hl Hs Hj Hid.
  assert (Hne : truthy (VDict items) = true).
  { destruct items; [discriminate Hid|reflexivity]. }
  unfold publish. unfold bind at 1.
  rewrite (create_release_exists _ _ _ _ _ _ Hl Hs). unfold parsed.
  rewrite Hj, Hne. cbn [negb].
  unfold bind at 1. unfold subscript at 1. rewrite Hid. unfold ret at 1.
  unfold bind at 1. rewrite (upload_asset_file _ _ _ _ _ _ Hf).
  cbv zeta.
  destruct (service w _ (upload_request tok release_id path content)) as [r'|];
    [destruct (Z.eqb (status_code r') 201)|]; cbn [negb].
  - unfold bind, print, subscript, ret, raise.
    destruct (dict_get "html_url" items); cbn [snd];
      rewrite ?requests_of_app; reflexivity.
  - unfold sys_exit. cbn [snd]. rewrite ?requests_of_app. reflexivity.
  - cbn [snd]. rewrite ?requests_of_app. reflexivity.
Qed.

(** C4.  No run sends more than one creation request.  When the lookup
    answers 200, [create_release] sends nothing more and returns the
    parsed answer; and a run that reaches the service with the file on
    disk then sends exactly the lookup and the upload to the identifier
    of the record it looked up. *)
Theorem at_most_one_creation (w : world) (args : Args) :
  List.length (filter is_creation (requests_of (snd (run w args)))) <= 1 /\
  (forall tok version tag_name tr r,
     lookup_response w tok tag_name tr = Some r -> status_code r = 200%Z ->
     create_release tok version (Some tag_name) w tr
     = (parsed r,
        tr ++ [Send (lookup_request tok tag_name);
               Print (MsgReleaseExists tag_name)])%list) /\
  (forall tok version content r items release_id,
     resolve_token w args = Some tok -> PyStr.truthy tok = true ->
     version_of w = Ret (Some version) -> PyStr.truthy version = true ->
     fs w (select_file args version) = Some (File content) ->
     lookup_response w tok (select_tag args version) [] = Some r ->
     status_code r = 200%Z ->
     json r = Some (VDict items) -> dict_get "id" items = Some release_id ->
     requests_of (snd (run w args))
     = [lookup_request tok (select_tag args version);
        upload_request tok release_id (select_file args version) content]).
Proof.
  split; [|split].
  - destruct (run_requests w args) as [-> | (tok & v & _ & _ & _ & _ & Hp)].
    + cbn. lia.
    + inversion Hp; cbn; lia.
  - intros tok version tag_name tr r Hl Hs.
    apply (create_release_exists _ _ _ _ _ _ Hl Hs).
  - intros tok version content r items id Htok Ht Hv Hvt Hf Hl Hs Hj Hid.
    rewrite (run_publish _ _ _ _ _ Htok Ht Hv Hvt Hf).
    apply (publish_existing _ _ _ _ _ _ _ _ _ Hf Hl Hs Hj Hid).
Qed.

Lemma at_most_one_creation_witness :
  List.length (filter is_creation (requests_of (snd (run w_fresh no_args)))) <= 1 /\
  requests_of (snd (run w_existing no_args))
  = [lookup_request "secret" "v2.1.0";
     upload_request "secret" (VInt 42) "releases/v2.1.0_kiki.zip" "ZIP"].
Proof.
  split.
  - exact (proj1 (at_most_one_creation w_fresh no_args)).
  - destruct (at_most_one_creation w_existing no_args) as (_ & _ & Hrun).
    exact (Hrun "secret" "2.1.0" "ZIP"
             {| status_code := 200; text := "found";
                json := Some (record 42) |}
             [("id", VInt 42);
              ("html_url", VStr "https://example.invalid/r")]
             (VInt 42)
             eq_refl eq_refl eq_refl eq_refl eq_refl eq_refl eq_refl eq_refl
             eq_refl).
Defined.

(** C10.  Whatever status other than 200 the lookup answers with (401
    and 500 as much as 404), the next thing [create_release] does is
    send the creation request: a POST of the release metadata, carrying
    the tag, to the releases address of the repository, under the same
    token.  No further request follows within [create_release]. *)
Theorem lookup_other_than_200_creates (w : world) (tok version : string)
    (tag_name : option string) (tr : trace) (r : response) :
  let tag := effective_tag version tag_name in
  let hdrs := [("Authorization", "token " ++ tok);
               ("Accept", "application/vnd.github.v3+json")] in
  let releases :=
    "https://api.github.com/repos/conghuy93/kikichatwiath_ai/releases" in
  service w tr (Get (releases ++ "/tags/" ++ tag) hdrs) = Some r ->
  status_code r <> 200%Z ->
  exists data evs,
    snd (create_release tok version tag_name w tr)
    = (tr ++ Send (Get (releases ++ "/tags/" ++ tag) hdrs)
          :: Send (PostJson releases hdrs data) :: evs)%list /\
    rd_tag_name data = tag /\
    rd_name data = "Release " ++ tag /\
    rd_draft data = false /\ rd_prerelease data = false /\
    requests_of evs = [].
Proof.
  intros tag hdrs releases Hl Hs.
  assert (E : create_release tok version tag_name
              = create_release tok version (Some tag))
    by (destruct tag_name; reflexivity).
  rewrite E, (create_release_absent _ _ _ _ _ _ Hl Hs).
  exists {| rd_tag_name := tag; rd_name := "Release " ++ tag;
            rd_body := release_body tag; rd_draft := false;
            rd_prerelease := false |}.
  destruct (creation_response w tok tag tr)
    as [r'|]; [destruct (Z.eqb (status_code r') 201)|];
    cbn [snd]; eexists; repeat split; reflexivity.
Qed.

Lemma lookup_other_than_200_creates_witness :
  exists data evs,
    snd (create_release "secret" "2.1.0" None w_unauthorized [])
    = (Send (Get ("https://api.github.com/repos/conghuy93/kikichatwiath_ai/releases"
                  ++ "/tags/" ++ "v2.1.0")
               [("Authorization", "token " ++ "secret");
                ("Accept", "application/vnd.github.v3+json")])
         :: Send (PostJson
                    "https://api.github.com/repos/conghuy93/kikichatwiath_ai/releases"
                    [("Authorization", "token " ++ "secret");
                     ("Accept", "application/vnd.github.v3+json")] data)
         :: evs) /\
    rd_tag_name data = "v2.1.0" /\
    rd_name data = "Release " ++ "v2.1.0" /\
    rd_draft data = false /\ rd_prerelease data = false /\
    requests_of evs = [].
Proof.
  apply (lookup_other_than_200_creates w_unauthorized "secret" "2.1.0" None []
           {| status_code := 401; text := "Bad credentials"; json := None |}).
  - reflexivity.
  - discriminate.
Defined.

(** C5.  In a run that reaches the service, when the lookup does not
    answer 200 and the creation does not answer 201, [create_release]
    prints the status code and the body of the answer and returns
    [None], and [main] exits with the service error: the log ends there
    and holds no upload. *)
Theorem creation_failure_aborts (w : world) (args : Args)
    (tok version : string) (e : entry) (r r' : response) :
  resolve_token w args = Some tok -> PyStr.truthy tok = true ->
  version_of w = Ret (Some version) -> PyStr.truthy version = true ->
  fs w (select_file args version) = Some e ->
  lookup_response w tok (select_tag args version) [] = Some r ->
  status_code r <> 200%Z ->
  creation_response w tok (select_tag args version) [] = Some r' ->
  status_code r' <> 201%Z ->
  let log := [Send (lookup_request tok (select_tag args version));
              Send (creation_request tok (select_tag args version));
              Print (MsgCreateFailed (status_code r'));
              Print (MsgText (text r'))] in
  create_release tok version (Some (select_tag args version)) w []
  = (Ret VNone, log) /\
  run w args = (SysExit ServiceError, log) /\
  filter is_upload (requests_of log) = [].
Proof.
  intros Htok Ht Hv Hvt Hf Hl Hs Hc Hs' log.
  assert (Hcr : create_release tok version (Some (select_tag args version)) w []
                = (Ret VNone, log)).
  { rewrite (create_release_absent _ _ _ _ _ _ Hl Hs), Hc.
    apply Z.eqb_neq in Hs'. now rewrite Hs'. }
  split; [exact Hcr|]. split; [|reflexivity].
  rewrite (run_publish _ _ _ _ _ Htok Ht Hv Hvt Hf).
  unfold publish, bind at 1. rewrite Hcr. reflexivity.
Qed.

Lemma creation_failure_aborts_witness :
  run w_rejected no_args
  = (SysExit ServiceError,
     [Send (lookup_request "secret" "v2.1.0");
      Send (creation_request "secret" "v2.1.0");
      Print (MsgCreateFailed 422); Print (MsgText "Validation Failed")]).
Proof.
  refine (proj1 (proj2
    (creation_failure_aborts w_rejected no_args "secret" "2.1.0" (File "ZIP")
       {| status_code := 404; text := "Not Found"; json := None |}
       {| status_code := 422; text := "Validation Failed"; json := None |}
       eq_refl eq_refl eq_refl eq_refl eq_refl eq_refl _ eq_refl _)));
    discriminate.
Defined.

(** ** The file check *)




(** ** The token *)




(** * Further properties of the release script *)

(** ** The Python string operations *)

Lemma count_app (c : ascii) (a b : string) :
  PyStr.count c (a ++ b) = PyStr.count c a + PyStr.count c b.
Proof.
  induction a as [|d a IH]; cbn [PyStr.count append]; [reflexivity|].
  rewrite IH. lia.
Qed.

Lemma append_empty_r (a : string) : a ++ EmptyString = a.
Proof.
  induction a as [|d a IH]; cbn [append]; [reflexivity|now rewrite IH].
Qed.

Lemma append_assoc (a b c : string) : (a ++ b) ++ c = a ++ b ++ c.
Proof.
  induction a as [|d a IH]; cbn [append]; [reflexivity|now rewrite IH].
Qed.

(** No piece of a split holds the separator. *)
Lemma split_pieces_clean (c : ascii) (s : string) :
  Forall (fun piece => PyStr.count c piece = 0) (PyStr.split c s).
Proof.
  induction s as [|d s IH]; cbn [PyStr.split].
  - repeat constructor.
  - destruct (Ascii.eqb d c) eqn:E.
    + constructor; [reflexivity|exact IH].
    + destruct (PyStr.split c s) as [|piece pieces].
      * constructor; [|constructor]. cbn [PyStr.count]. now rewrite E.
      * inversion IH as [|? ? Hp Hps]; subst.
        constructor; [|exact Hps]. cbn [PyStr.count]. now rewrite E, Hp.
Qed.

Lemma concat_cons (sep x y : string) (ls : list string) :
  String.concat sep (x :: y :: ls) = x ++ sep ++ String.concat sep (y :: ls).
Proof. reflexivity. Qed.

(** X1.  [sep.join(s.split(sep))] is [s]: the split loses nothing of the
    line. *)
Theorem split_join_round_trip (c : ascii) (s : string) :
  String.concat (String c EmptyString) (PyStr.split c s) = s.
Proof.
  induction s as [|d s IH]; cbn [PyStr.split]; [reflexivity|].
  pose proof (split_length c s) as Hlen.
  destruct (PyStr.split c s) as [|piece pieces] eqn:Es; [discriminate Hlen|].
  destruct (Ascii.eqb d c) eqn:E.
  - apply Ascii.eqb_eq in E. subst d.
    rewrite concat_cons, IH. reflexivity.
  - destruct pieces as [|p2 ps].
    + cbn [String.concat] in IH |- *. now rewrite IH.
    + rewrite concat_cons. rewrite concat_cons in IH.
      rewrite <- IH. reflexivity.
Qed.

(** ** More on the version *)

Lemma scan_lines_clean (w : world) (ls : list string) (tr : trace) (v : string) :
  fst (scan_lines ls w tr) = Ret (Some v) -> PyStr.count quote v = 0.
Proof.
  induction ls as [|l ls IH]; cbn [scan_lines]; [discriminate|].
  destruct (PyStr.startswith l marker); [|exact IH].
  destruct (nth_error (PyStr.split quote l) 1) as [x|] eqn:E; [|discriminate].
  intros H. injection H as ->.
  apply nth_error_In in E.
  exact (proj1 (Forall_forall _ _) (split_pieces_clean quote l) _ E).
Qed.

(** X3.  Whatever the configuration file holds, a version that
    [get_project_version] returns has no double quote in it. *)
Theorem version_has_no_quote (w : world) (tr : trace) (v : string) :
  fst (get_project_version w tr) = Ret (Some v) -> PyStr.count quote v = 0.
Proof.
  unfold get_project_version, bind, stat.
  destruct (fs w "CMakeLists.txt") as [[content|n]|]; try discriminate.
  apply scan_lines_clean.
Qed.

Lemma version_has_no_quote_witness :
  fst (get_project_version w_fresh []) = Ret (Some "2.1.0") /\
  PyStr.count quote "2.1.0" = 0.
Proof.
  split; [reflexivity|].
  exact (version_has_no_quote w_fresh [] "2.1.0" eq_refl).
Defined.

(** X4.  A declaration whose quoted value is empty is read as the empty
    version, and [main] treats it like a missing declaration: it exits
    with the version error before looking at the file or the service. *)
Theorem empty_version_is_config_error (w : world) (args : Args)
    (content : string) (pre post : list string) (a b tok : string) :
  fs w "CMakeLists.txt" = Some (File content) ->
  PyStr.readlines content = (pre ++ quoted_line a EmptyString b :: post)%list ->
  no_marker pre ->
  PyStr.startswith (quoted_line a EmptyString b) marker = true ->
  PyStr.count quote a = 0 ->
  resolve_token w args = Some tok -> PyStr.truthy tok = true ->
  get_project_version w [] = (Ret (Some EmptyString), []) /\
  run w args = (SysExit ConfigError, [Print MsgNoVersion]).
Proof.
  intros H Hl Hpre Hm Ha Htok Ht.
  assert (Hv : version_of w = Ret (Some EmptyString)).
  { rewrite (version_first _ _ _ _ _ H Hl Hpre Hm). unfold quoted_line.
    now rewrite (split_second quote a EmptyString b Ha eq_refl). }
  split; [now rewrite get_project_version_log, Hv|].
  apply (run_no_version _ _ _ Htok Ht). now right.
Qed.

Lemma empty_version_is_config_error_witness :
  get_project_version w_empty_version [] = (Ret (Some EmptyString), []) /\
  run w_empty_version no_args = (SysExit ConfigError, [Print MsgNoVersion]).
Proof.
  exact (empty_version_is_config_error w_empty_version no_args
           cmake_empty_version [] ["project(kiki)" ++ nl]
           "set(PROJECT_VER " (")" ++ nl) "secret"
           eq_refl eq_refl (Forall_nil _) eq_refl eq_refl eq_refl eq_refl).
Defined.

(** ** After the release is known *)

(** What [publish] does with the outcome of [create_release]. *)
Lemma publish_after_release (w : world) (tok version tag_name path : string)
    (tr log : trace) (release : value) :
  create_release tok version (Some tag_name) w tr = (Ret release, log) ->
  publish tok version tag_name path w tr =
  if negb (truthy release) then (SysExit ServiceError, log)
  else match release with
       | VDict items =>
           match dict_get "id" items with
           | None => (Raise KeyError, log)
           | Some release_id =>
               match upload_asset tok release_id path w log with
               | (Ret true, log') =>
                   match dict_get "html_url" items with
                   | Some url =>
                       (Ret tt,
                        log' ++ [Print (MsgDone tag_name); Print (MsgUrl url)])%list
                   | None =>
                       (Raise KeyError, log' ++ [Print (MsgDone tag_name)])%list
                   end
               | (Ret false, log') => (SysExit ServiceError, log')
               | (SysExit f, log') => (SysExit f, log')
               | (Raise e, log') => (Raise e, log')
               end
           end
       | _ => (Raise TypeError, log)
       end.
Proof.
  intros Hcr. unfold publish. unfold bind at 1. rewrite Hcr.
  destruct (truthy release) eqn:Htr; cbn [negb]; [|reflexivity].
  destruct release as [| | | |items|items]; try reflexivity.
  unfold bind at 1. unfold subscript at 1.
  destruct (dict_get "id" items) as [release_id|]; [|reflexivity].
  unfold ret at 1. unfold bind at 1.
  destruct (upload_asset tok release_id path w log) as [[[|]|f|e] log'];
    cbn [negb]; try reflexivity.
  unfold bind, print, subscript, ret, raise.
  destruct (dict_get "html_url" items); rewrite <- ?app_assoc; reflexivity.
Qed.

Section AfterRelease.

Variable w : world.
Variable args : Args.
Variables tok version : string.
Variable log : trace.

Hypothesis Htok : resolve_token w args = Some tok.
Hypothesis Ht : PyStr.truthy tok = true.
Hypothesis Hv : version_of w = Ret (Some version).
Hypothesis Hvt : PyStr.truthy version = true.

Lemma run_after_release (e : entry) (release : value) :
  fs w (select_file args version) = Some e ->
  create_release tok version (Some (select_tag args version)) w []
  = (Ret release, log) ->
  run w args =
  publish tok version (select_tag args version) (select_file args version) w [] /\
  publish tok version (select_tag args version) (select_file args version) w []
  = if negb (truthy release) then (SysExit ServiceError, log)
    else match release with
         | VDict items =>
             match dict_get "id" items with
             | None => (Raise KeyError, log)
             | Some release_id =>
                 match upload_asset tok release_id (select_file args version)
                         w log with
                 | (Ret true, log') =>
                     match dict_get "html_url" items with
                     | Some url =>
                         (Ret tt,
                          log' ++ [Print (MsgDone (select_tag args version));
                                   Print (MsgUrl url)])%list
                     | None =>
                         (Raise KeyError,
                          log' ++ [Print (MsgDone (select_tag args version))])%list
                     end
                 | (Ret false, log') => (SysExit ServiceError, log')
                 | (SysExit f, log') => (SysExit f, log')
                 | (Raise e, log') => (Raise e, log')
                 end
             end
         | _ => (Raise TypeError, log)
         end.
Proof.
  intros Hf Hcr. split.
  - apply (run_publish _ _ _ _ _ Htok Ht Hv Hvt Hf).
  - apply (publish_after_release _ _ _ _ _ _ _ _ Hcr).
Qed.

End AfterRelease.

(** X6.  When the record [create_release] returns is false in Python's
    sense (an empty object, null, zero, an empty list or string), the
    run exits with status 1 straight away: nothing is printed after what
    [create_release] printed and no upload is sent. *)
Theorem falsy_record_exits_silently (w : world) (args : Args)
    (tok version : string) (e : entry) (release : value) (log : trace) :
  resolve_token w args = Some tok -> PyStr.truthy tok = true ->
  version_of w = Ret (Some version) -> PyStr.truthy version = true ->
  fs w (select_file args version) = Some e ->
  create_release tok version (Some (select_tag args version)) w []
  = (Ret release, log) ->
  truthy release = false ->
  run w args = (SysExit ServiceError, log).
Proof.
  intros Htok Ht Hv Hvt Hf Hcr Hfalse.
  destruct (run_after_release w args tok version log Htok Ht Hv Hvt e release
              Hf Hcr) as (-> & ->).
  now rewrite Hfalse.
Qed.

Lemma falsy_record_exits_silently_witness :
  run w_empty_record no_args
  = (SysExit ServiceError,
     [Send (lookup_request "secret" "v2.1.0");
      Print (MsgReleaseExists "v2.1.0")]).
Proof.
  exact (falsy_record_exits_silently w_empty_record no_args "secret" "2.1.0"
           (File "ZIP") (VDict []) _
           eq_refl eq_refl eq_refl eq_refl eq_refl eq_refl eq_refl).
Defined.

(** X7.  When the record is true in Python's sense but is not an object
    with an ["id"], reading [release['id']] raises ([KeyError] for an
    object without the key, [TypeError] for anything that is not an
    object) and the run ends there, uncaught, with no upload sent. *)
Theorem record_without_id_raises (w : world) (args : Args)
    (tok version : string) (e : entry) (release : value) (log : trace) :
  resolve_token w args = Some tok -> PyStr.truthy tok = true ->
  version_of w = Ret (Some version) -> PyStr.truthy version = true ->
  fs w (select_file args version) = Some e ->
  create_release tok version (Some (select_tag args version)) w []
  = (Ret release, log) ->
  truthy release = true ->
  match release with
  | VDict items =>
      dict_get "id" items = None -> run w args = (Raise KeyError, log)
  | _ => run w args = (Raise TypeError, log)
  end.
Proof.
  intros Htok Ht Hv Hvt Hf Hcr Htrue.
  destruct (run_after_release w args tok version log Htok Ht Hv Hvt e release
              Hf Hcr) as (-> & ->).
  rewrite Htrue. cbn [negb].
  destruct release; try reflexivity.
  intros ->. reflexivity.
Qed.

Lemma record_without_id_raises_witness :
  run w_no_id no_args
  = (Raise KeyError,
     [Send (lookup_request "secret" "v2.1.0");
      Print (MsgReleaseExists "v2.1.0")]) /\
  run w_list_record no_args
  = (Raise TypeError,
     [Send (lookup_request "secret" "v2.1.0");
      Print (MsgReleaseExists "v2.1.0")]).
Proof.
  split.
  - exact (record_without_id_raises w_no_id no_args "secret" "2.1.0"
             (File "ZIP") (VDict [("html_url", VStr "u")]) _
             eq_refl eq_refl eq_refl eq_refl eq_refl eq_refl eq_refl eq_refl).
  - exact (record_without_id_raises w_list_record no_args "secret" "2.1.0"
             (File "ZIP") (VList [VInt 1]) _
             eq_refl eq_refl eq_refl eq_refl eq_refl eq_refl eq_refl).
Defined.

(** ** The upload step *)

(** X5.  When the lookup does not answer 200 and the creation answers
    201, [create_release] returns the body of the creation answer as
    parsed, unchanged, and the log holds the two requests and the
    confirmation line. *)
Theorem created_record_is_returned (w : world) (tok version tag_name : string)
    (tr : trace) (r r' : response) :
  lookup_response w tok tag_name tr = Some r -> status_code r <> 200%Z ->
  creation_response w tok tag_name tr = Some r' -> status_code r' = 201%Z ->
  create_release tok version (Some tag_name) w tr
  = (parsed r',
     tr ++ [Send (lookup_request tok tag_name);
            Send (creation_request tok tag_name);
            Print (MsgCreated tag_name)])%list.
Proof.
  intros Hl Hs Hc Hs'.
  rewrite (create_release_absent _ _ _ _ _ _ Hl Hs), Hc, Hs'. reflexivity.
Qed.

Lemma created_record_is_returned_witness :
  create_release "secret" "2.1.0" (Some "v2.1.0") w_fresh []
  = (Ret (record 7),
     [Send (lookup_request "secret" "v2.1.0");
      Send (creation_request "secret" "v2.1.0");
      Print (MsgCreated "v2.1.0")]).
Proof.
  refine (created_record_is_returned w_fresh "secret" "2.1.0" "v2.1.0" []
            {| status_code := 404; text := "Not Found"; json := None |}
            {| status_code := 201; text := "created";
               json := Some (record 7) |}
            eq_refl _ eq_refl eq_refl).
  discriminate.
Defined.

(** X8.  [upload_asset] sends exactly one request and returns [True]
    exactly when the service answers it with 201; on any other status it
    prints the status and the body and returns [False]. *)
Theorem upload_asset_result (w : world) (tok : string) (release_id : value)
    (path content : string) (tr : trace) (r : response) :
  fs w path = Some (File content) ->
  service w
    (tr ++ [Print (MsgUploading (PyStr.basename path) (String.length content))])%list
    (upload_request tok release_id path content) = Some r ->
  requests_of (snd (upload_asset tok release_id path w tr))
  = (requests_of tr ++ [upload_request tok release_id path content])%list /\
  (fst (upload_asset tok release_id path w tr) = Ret true
   <-> status_code r = 201%Z) /\
  (status_code r <> 201%Z ->
   upload_asset tok release_id path w tr
   = (Ret false,
      tr ++ [Print (MsgUploading (PyStr.basename path) (String.length content));
             Send (upload_request tok release_id path content);
             Print (MsgUploadFailed (status_code r));
             Print (MsgText (text r))])%list).
Proof.
  intros Hf Hr. rewrite (upload_asset_file _ _ _ _ _ _ Hf). cbv zeta.
  rewrite Hr.
  destruct (Z.eqb (status_code r) 201) eqn:E; cbn [fst snd];
    rewrite <- ?app_assoc, ?requests_of_app; cbn [app requests_of].
  - apply Z.eqb_eq in E. split; [reflexivity|]. split; [tauto|].
    intros Hne. contradiction.
  - apply Z.eqb_neq in E. split; [reflexivity|]. split; [|reflexivity].
    split; [discriminate|intros Heq; contradiction].
Qed.

Lemma upload_asset_result_witness :
  fst (upload_asset "secret" (VInt 7) "fw.zip" w_upload_refused []) <> Ret true /\
  upload_asset "secret" (VInt 7) "fw.zip" w_upload_refused []
  = (Ret false,
     [Print (MsgUploading "fw.zip" 2);
      Send (upload_request "secret" (VInt 7) "fw.zip" "FW");
      Print (MsgUploadFailed 422); Print (MsgText "already_exists")]).
Proof.
  destruct (upload_asset_result w_upload_refused "secret" (VInt 7) "fw.zip" "FW"
              [] {| status_code := 422; text := "already_exists"; json := None |}
              eq_refl eq_refl) as (_ & Hiff & Hfail).
  split.
  - intros H. apply Hiff in H. discriminate H.
  - apply Hfail. discriminate.
Defined.

Section UploadStep.

Variable w : world.
Variable args : Args.
Variables tok version : string.
Variable log : trace.
Variable items : list (string * value).
Variable release_id : value.

Hypothesis Htok : resolve_token w args = Some tok.
Hypothesis Ht : PyStr.truthy tok = true.
Hypothesis Hv : version_of w = Ret (Some version).
Hypothesis Hvt : PyStr.truthy version = true.
Hypothesis Hcr :
  create_release tok version (Some (select_tag args version)) w []
  = (Ret (VDict items), log).
Hypothesis Hid : dict_get "id" items = Some release_id.

Lemma run_upload_step (e : entry) :
  fs w (select_file args version) = Some e ->
  run w args =
  match upload_asset tok release_id (select_file args version) w log with
  | (Ret true, log') =>
      match dict_get "html_url" items with
      | Some url =>
          (Ret tt,
           log' ++ [Print (MsgDone (select_tag args version));
                    Print (MsgUrl url)])%list
      | None =>
          (Raise KeyError,
           log' ++ [Print (MsgDone (select_tag args version))])%list
      end
  | (Ret false, log') => (SysExit ServiceError, log')
  | (SysExit f, log') => (SysExit f, log')
  | (Raise e, log') => (Raise e, log')
  end.
Proof.
  intros Hf.
  destruct (run_after_release w args tok version log Htok Ht Hv Hvt e
              (VDict items) Hf Hcr) as (-> & ->).
  assert (Hne : truthy (VDict items) = true).
  { destruct items; [discriminate Hid|reflexivity]. }
  rewrite Hne, Hid. reflexivity.
Qed.

End UploadStep.

(** X9.  When the service answers the upload with a status other than
    201, the run exits with status 1 and its log ends with the status
    and the body of that answer: the closing success lines are not
    printed. *)
Theorem upload_failure_aborts (w : world) (args : Args) (tok version : string)
    (log : trace) (items : list (string * value)) (release_id : value)
    (content : string) (r : response) :
  resolve_token w args = Some tok -> PyStr.truthy tok = true ->
  version_of w = Ret (Some version) -> PyStr.truthy version = true ->
  create_release tok version (Some (select_tag args version)) w []
  = (Ret (VDict items), log) ->
  dict_get "id" items = Some release_id ->
  fs w (select_file args version) = Some (File content) ->
  let path := select_file args version in
  let uploading :=
    Print (MsgUploading (PyStr.basename path) (String.length content)) in
  service w (log ++ [uploading])%list
    (upload_request tok release_id path content) = Some r ->
  status_code r <> 201%Z ->
  run w args
  = (SysExit ServiceError,
     log ++ [uploading; Send (upload_request tok release_id path content);
             Print (MsgUploadFailed (status_code r));
             Print (MsgText (text r))])%list.
Proof.
  intros Htok Ht Hv Hvt Hcr Hid Hf path uploading Hr Hs.
  rewrite (run_upload_step w args tok version log items release_id
             Htok Ht Hv Hvt Hcr Hid _ Hf).
  destruct (upload_asset_result w tok release_id path content log r Hf Hr)
    as (_ & _ & Hfail).
  fold path. rewrite (Hfail Hs). reflexivity.
Qed.

Lemma upload_failure_aborts_witness :
  run w_upload_refused no_args
  = (SysExit ServiceError,
     [Send (lookup_request "secret" "v2.1.0");
      Send (creation_request "secret" "v2.1.0");
      Print (MsgCreated "v2.1.0");
      Print (MsgUploading "v2.1.0_kiki.zip" 3);
      Send (upload_request "secret" (VInt 7) "releases/v2.1.0_kiki.zip" "ZIP");
      Print (MsgUploadFailed 422); Print (MsgText "already_exists")]).
Proof.
  refine (upload_failure_aborts w_upload_refused no_args "secret" "2.1.0" _
            [("id", VInt 7); ("html_url", VStr "https://example.invalid/r")]
            (VInt 7) "ZIP"
            {| status_code := 422; text := "already_exists"; json := None |}
            eq_refl eq_refl eq_refl eq_refl eq_refl eq_refl eq_refl eq_refl _).
  discriminate.
Defined.

(** X10.  When the record has an ["id"] but no ["html_url"], the asset is
    uploaded and the success line printed, and then the run ends with an
    uncaught [KeyError] instead of a normal exit. *)
Theorem missing_html_url_raises_after_upload (w : world) (args : Args)
    (tok version : string) (log : trace) (items : list (string * value))
    (release_id : value) (content : string) (r : response) :
  resolve_token w args = Some tok -> PyStr.truthy tok = true ->
  version_of w = Ret (Some version) -> PyStr.truthy version = true ->
  create_release tok version (Some (select_tag args version)) w []
  = (Ret (VDict items), log) ->
  dict_get "id" items = Some release_id ->
  dict_get "html_url" items = None ->
  fs w (select_file args version) = Some (File content) ->
  let path := select_file args version in
  let uploading :=
    Print (MsgUploading (PyStr.basename path) (String.length content)) in
  service w (log ++ [uploading])%list
    (upload_request tok release_id path content) = Some r ->
  status_code r = 201%Z ->
  run w args
  = (Raise KeyError,
     log ++ [uploading; Send (upload_request tok release_id path content);
             Print (MsgUploaded (PyStr.basename path));
             Print (MsgDone (select_tag args version))])%list.
Proof.
  intros Htok Ht Hv Hvt Hcr Hid Hurl Hf path uploading Hr Hs.
  rewrite (run_upload_step w args tok version log items release_id
             Htok Ht Hv Hvt Hcr Hid _ Hf).
  rewrite (upload_asset_file _ _ _ _ _ _ Hf). cbv zeta.
  fold path. fold uploading. rewrite Hr, Hs. cbn [Z.eqb Pos.eqb].
  rewrite Hurl, <- !app_assoc. reflexivity.
Qed.

Lemma missing_html_url_raises_after_upload_witness :
  run w_no_url no_args
  = (Raise KeyError,
     [Send (lookup_request "secret" "v2.1.0");
      Print (MsgReleaseExists "v2.1.0");
      Print (MsgUploading "v2.1.0_kiki.zip" 3);
      Send (upload_request "secret" (VInt 42) "releases/v2.1.0_kiki.zip" "ZIP");
      Print (MsgUploaded "v2.1.0_kiki.zip"); Print (MsgDone "v2.1.0")]).
Proof.
  exact (missing_html_url_raises_after_upload w_no_url no_args "secret" "2.1.0"
           _ [("id", VInt 42)] (VInt 42) "ZIP"
           {| status_code := 201; text := "uploaded"; json := None |}
           eq_refl eq_refl eq_refl eq_refl eq_refl eq_refl eq_refl eq_refl
           eq_refl eq_refl).
Defined.

(** X11.  A selected path that names a directory passes the existence
    check of [main]; the release is looked up or created as usual, and
    only then does the run fail, on opening the path, without having
    sent an upload. *)
Theorem directory_asset_fails_after_release (w : world) (args : Args)
    (tok version : string) (log : trace) (items : list (string * value))
    (release_id : value) (n : nat) :
  resolve_token w args = Some tok -> PyStr.truthy tok = true ->
  version_of w = Ret (Some version) -> PyStr.truthy version = true ->
  create_release tok version (Some (select_tag args version)) w []
  = (Ret (VDict items), log) ->
  dict_get "id" items = Some release_id ->
  fs w (select_file args version) = Some (Dir n) ->
  run w args
  = (Raise IsADirectoryError,
     log ++ [Print (MsgUploading (PyStr.basename (select_file args version)) n)])%list
  /\ filter is_upload (requests_of (snd (run w args))) = [].
Proof.
  intros Htok Ht Hv Hvt Hcr Hid Hf.
  rewrite (run_upload_step w args tok version log items release_id
             Htok Ht Hv Hvt Hcr Hid _ Hf).
  rewrite (upload_asset_dir _ _ _ _ _ _ Hf). split; [reflexivity|].
  cbn [snd]. rewrite requests_of_app. cbn [requests_of]. rewrite app_nil_r.
  assert (Hlog : requests_of log
                 = requests_of (snd (create_release tok version
                                       (Some (select_tag args version)) w [])))
    by now rewrite Hcr.
  rewrite Hlog.
  unfold create_release, bind, send, print, parse_json, ret, raise.
  repeat split_match; reflexivity.
Qed.

Lemma directory_asset_fails_after_release_witness :
  run w_dir_asset no_args
  = (Raise IsADirectoryError,
     [Send (lookup_request "secret" "v2.1.0");
      Send (creation_request "secret" "v2.1.0");
      Print (MsgCreated "v2.1.0");
      Print (MsgUploading "v2.1.0_kiki.zip" 4096)]).
Proof.
  exact (proj1 (directory_asset_fails_after_release w_dir_asset no_args
                  "secret" "2.1.0" _
                  [("id", VInt 7);
                   ("html_url", VStr "https://example.invalid/r")]
                  (VInt 7) 4096
                  eq_refl eq_refl eq_refl eq_refl eq_refl eq_refl eq_refl)).
Defined.

(** X12.  When the lookup answers 200 with a body that is not JSON, the
    run ends with the decoding exception right after announcing that the
    release exists; no creation is attempted and nothing is uploaded. *)
Theorem unparsable_lookup_raises (w : world) (args : Args)
    (tok version : string) (e : entry) (r : response) :
  resolve_token w args = Some tok -> PyStr.truthy tok = true ->
  version_of w = Ret (Some version) -> PyStr.truthy version = true ->
  fs w (select_file args version) = Some e ->
  lookup_response w tok (select_tag args version) [] = Some r ->
  status_code r = 200%Z -> json r = None ->
  run w args
  = (Raise JSONDecodeError,
     [Send (lookup_request tok (select_tag args version));
      Print (MsgReleaseExists (select_tag args version))]).
Proof.
  intros Htok Ht Hv Hvt Hf Hl Hs Hj.
  rewrite (run_publish _ _ _ _ _ Htok Ht Hv Hvt Hf).
  unfold publish, bind at 1.
  rewrite (create_release_exists _ _ _ _ _ _ Hl Hs). unfold parsed.
  now rewrite Hj.
Qed.

Lemma unparsable_lookup_raises_witness :
  run w_bad_json no_args
  = (Raise JSONDecodeError,
     [Send (lookup_request "secret" "v2.1.0");
      Print (MsgReleaseExists "v2.1.0")]).
Proof.
  exact (unparsable_lookup_raises w_bad_json no_args "secret" "2.1.0"
           (File "ZIP")
           {| status_code := 200; text := "<html>"; json := None |}
           eq_refl eq_refl eq_refl eq_refl eq_refl eq_refl eq_refl eq_refl).
Defined.

(** ** Whole runs *)

Lemma publish_success (w : world) (tok version tag_name path : string)
    (tr : trace) :
  fst (publish tok version tag_name path w tr) = Ret tt ->
  exists release_id content url pre,
    fs w path = Some (File content) /\
    snd (publish tok version tag_name path w tr)
    = (pre ++ [Print (MsgUploading (PyStr.basename path) (String.length content));
               Send (upload_request tok release_id path content);
               Print (MsgUploaded (PyStr.basename path));
               Print (MsgDone tag_name); Print (MsgUrl url)])%list.
Proof.
  unfold publish, create_release, upload_asset, bind, send, print, stat,
    parse_json, subscript, ret, raise, sys_exit.
  repeat split_match; cbn [fst snd]; intros H; try discriminate H;
    try (exfalso; cbn [negb] in *; congruence);
    rewrite <- ?app_assoc; cbn [app];
    match goal with
    | Hid : dict_get "id" _ = Some ?id, Hu : dict_get "html_url" _ = Some ?u
      |- exists _ _ _ _, Some (File ?c) = _ /\ _ =>
        exists id, c, u
    end;
    match goal with
    | |- exists _, _ /\ (tr ++ ?a :: ?b :: ?c :: ?rest)%list = _ =>
        first [ exists (tr ++ [a; b])%list; split; [reflexivity|];
                rewrite <- app_assoc; reflexivity
              | exists (tr ++ [a; b; c])%list; split; [reflexivity|];
                rewrite <- app_assoc; reflexivity ]
    end.
Qed.

(** X13.  A run ends normally only after a successful upload: its log then
    ends with the upload of the selected file as it is on disk, the
    confirmation of that upload and the two closing lines. *)
Theorem normal_exit_means_uploaded (w : world) (args : Args) :
  fst (run w args) = Ret tt ->
  exists tok version release_id content url pre,
    resolve_token w args = Some tok /\
    version_of w = Ret (Some version) /\
    fs w (select_file args version) = Some (File content) /\
    snd (run w args)
    = (pre ++ [Print (MsgUploading (PyStr.basename (select_file args version))
                        (String.length content));
               Send (upload_request tok release_id (select_file args version)
                       content);
               Print (MsgUploaded (PyStr.basename (select_file args version)));
               Print (MsgDone (select_tag args version));
               Print (MsgUrl url)])%list.
Proof.
  destruct (opt_truthy (resolve_token w args)) eqn:Ht.
  - apply opt_truthy_some in Ht. destruct Ht as (tok & Htok & Ht).
    rewrite (run_with_token _ _ _ Htok Ht).
    destruct (version_of w) as [[v|]|f|e] eqn:Hv; try discriminate.
    destruct (PyStr.truthy v) eqn:Hvt; [|discriminate].
    destruct (fs w (select_file args v)) eqn:Hf; [|discriminate].
    intros H. apply publish_success in H.
    destruct H as (id & c & u & pre & Hfile & Hlog).
    exists tok, v, id, c, u, pre. repeat split; assumption.
  - rewrite (run_no_token _ _ Ht). discriminate.
Qed.

Lemma normal_exit_means_uploaded_witness :
  exists tok version release_id content url pre,
    resolve_token w_fresh no_args = Some tok /\
    version_of w_fresh = Ret (Some version) /\
    fs w_fresh (select_file no_args version) = Some (File content) /\
    snd (run w_fresh no_args)
    = (pre ++ [Print (MsgUploading (PyStr.basename (select_file no_args version))
                        (String.length content));
               Send (upload_request tok release_id (select_file no_args version)
                       content);
               Print (MsgUploaded (PyStr.basename (select_file no_args version)));
               Print (MsgDone (select_tag no_args version));
               Print (MsgUrl url)])%list.
Proof.
  exact (normal_exit_means_uploaded w_fresh no_args eq_refl).
Defined.

(** X14.  Nothing is retried.  A run sends at most three requests: at most
    one lookup, at most one creation and at most one upload, and no
    request of any other kind; and when it sends any, the first is the
    lookup. *)
Theorem no_request_is_repeated (w : world) (args : Args) :
  let reqs := requests_of (snd (run w args)) in
  List.length reqs <= 3 /\
  List.length (filter is_lookup reqs) <= 1 /\
  List.length (filter is_creation reqs) <= 1 /\
  List.length (filter is_upload reqs) <= 1 /\
  List.length reqs
  = List.length (filter is_lookup reqs)
    + List.length (filter is_creation reqs)
    + List.length (filter is_upload reqs) /\
  (reqs = [] \/ exists r, hd_error reqs = Some r /\ is_lookup r = true).
Proof.
  cbv zeta.
  destruct (run_requests w args) as [-> | (tok & v & _ & _ & _ & _ & Hp)].
  - cbn. repeat split; try lia. now left.
  - inversion Hp; cbn; repeat split; try lia; right; eexists; split;
      reflexivity.
Qed.

(** X15.  A non-empty [--tag] replaces the derived tag in every request
    that names one: the lookup asks for that tag and the creation body
    carries it as tag and in the release name, whatever the version
    is. *)
Theorem tag_argument_overrides (w : world) (args : Args) (t : string) :
  tag args = Some t -> PyStr.truthy t = true ->
  forall r, In r (requests_of (snd (run w args))) ->
    match r with
    | Get url _ => url = releases_url ++ "/tags/" ++ t
    | PostJson url _ data =>
        url = releases_url /\ rd_tag_name data = t /\
        rd_name data = "Release " ++ t /\
        rd_draft data = false /\ rd_prerelease data = false
    | PostFile _ _ _ _ _ _ => True
    end.
Proof.
  intros Htag Htt r Hin.
  assert (Hsel : forall v, select_tag args v = t).
  { intros v. unfold select_tag. rewrite Htag. cbn [str_or]. now rewrite Htt. }
  destruct (run_requests w args) as [E | (tok & v & _ & _ & _ & _ & Hp)].
  - rewrite E in Hin. destruct Hin.
  - rewrite Hsel in Hp.
    inversion Hp as [E | E | id c Hf E | id c Hf E]; rewrite <- E in Hin;
      cbn [In] in Hin;
      repeat match goal with
             | H : _ \/ _ |- _ => destruct H as [H | H]
             | H : False |- _ => destruct H
             end;
      subst r; cbn; repeat split; reflexivity.
Qed.

Lemma tag_argument_overrides_witness :
  In (lookup_request "secret" "nightly")
     (requests_of (snd (run w_fresh tagged_args))) /\
  match lookup_request "secret" "nightly" with
  | Get url _ => url = releases_url ++ "/tags/" ++ "nightly"
  | _ => False
  end.
Proof.
  split; [left; reflexivity|].
  exact (tag_argument_overrides w_fresh tagged_args "nightly" eq_refl eq_refl
           (lookup_request "secret" "nightly") (or_introl eq_refl)).
Defined.

Lemma basename_from_clean (cur p : string) :
  PyStr.count "/"%char cur = 0 ->
  PyStr.count "/"%char (PyStr.basename_from cur p) = 0.
Proof.
  revert cur. induction p as [|d p IH]; intros cur Hc;
    cbn [PyStr.basename_from]; [exact Hc|].
  destruct (Ascii.eqb d "/"%char) eqn:E.
  - now apply IH.
  - apply IH. rewrite count_app. cbn [PyStr.count]. rewrite E, Hc. reflexivity.
Qed.

Lemma basename_from_plain (cur p : string) :
  PyStr.count "/"%char p = 0 -> PyStr.basename_from cur p = cur ++ p.
Proof.
  revert cur. induction p as [|d p IH]; intros cur;
    cbn [PyStr.basename_from PyStr.count].
  - intros _. now rewrite append_empty_r.
  - destruct (Ascii.eqb d "/"%char); [discriminate|]. intros H.
    rewrite (IH _ H), append_assoc. reflexivity.
Qed.

Lemma basename_from_after_slash (cur a b : string) :
  PyStr.basename_from cur (a ++ String "/"%char b)
  = PyStr.basename_from EmptyString b.
Proof.
  revert cur. induction a as [|d a IH]; intros cur;
    cbn [append PyStr.basename_from].
  - reflexivity.
  - destruct (Ascii.eqb d "/"%char); apply IH.
Qed.

(** [basename] of [dir/leaf] is [leaf]. *)
Lemma basename_leaf (dir leaf : string) :
  PyStr.count "/"%char leaf = 0 ->
  PyStr.basename (dir ++ String "/"%char leaf) = leaf.
Proof.
  intros H. unfold PyStr.basename.
  now rewrite basename_from_after_slash, (basename_from_plain _ _ H).
Qed.

(** X16.  [upload_asset] names the asset after the last component of
    the path it is given.  For a file on disk it sends one request, in
    which the file field and the [name] parameter carry the same name,
    [os.path.basename] of the path; that name holds no slash, and for a
    path [dir/leaf] it is [leaf]. *)
Theorem asset_name_is_last_component (w : world) (tok : string)
    (release_id : value) (path content : string) (tr : trace) :
  fs w path = Some (File content) ->
  exists name,
    let sent :=
      PostFile release_id
        [("Authorization", "token " ++ tok);
         ("Accept", "application/vnd.github.v3+json")]
        name content "application/octet-stream" [("name", name)] in
    requests_of (snd (upload_asset tok release_id path w tr))
    = (requests_of tr ++ [sent])%list /\
    name = PyStr.basename path /\
    PyStr.count "/"%char name = 0 /\
    (forall dir leaf,
       path = dir ++ String "/"%char leaf ->
       PyStr.count "/"%char leaf = 0 ->
       name = leaf).
Proof.
  intros Hf. exists (PyStr.basename path). cbv zeta.
  split; [|split; [|split]].
  - rewrite (upload_asset_file _ _ _ _ _ _ Hf). cbv zeta.
    destruct (service w _ (upload_request tok release_id path content))
      as [r|]; [destruct (Z.eqb (status_code r) 201)|];
      cbn [snd]; rewrite <- ?app_assoc, !requests_of_app; reflexivity.
  - reflexivity.
  - apply basename_from_clean. reflexivity.
  - intros dir leaf -> Hleaf. now apply basename_leaf.
Qed.

Lemma asset_name_is_last_component_witness :
  exists name,
    requests_of (snd (upload_asset "secret" (VInt 7) "releases/v2.1.0_kiki.zip"
                        w_fresh []))
    = [PostFile (VInt 7)
         [("Authorization", "token " ++ "secret");
          ("Accept", "application/vnd.github.v3+json")]
         name "ZIP" "application/octet-stream" [("name", name)]] /\
    name = PyStr.basename "releases/v2.1.0_kiki.zip" /\
    PyStr.count "/"%char name = 0 /\
    (forall dir leaf,
       "releases/v2.1.0_kiki.zip" = dir ++ String "/"%char leaf ->
       PyStr.count "/"%char leaf = 0 ->
       name = leaf).
Proof.
  exact (asset_name_is_last_component w_fresh "secret" (VInt 7)
           "releases/v2.1.0_kiki.zip" "ZIP" [] eq_refl).
Defined.

(** * The download script: the output path *)

Section Paths.

Import PosixPath.

Lemma head_plain (p : string) : PyStr.count "/"%char p = 0 -> head p = EmptyString.
Proof.
  destruct p as [|c p]; [reflexivity|]. cbn [head]. now intros ->.
Qed.

Lemma head_split (a b : string) :
  PyStr.count "/"%char b = 0 -> head (a ++ String "/"%char b) = a ++ String "/"%char EmptyString.
Proof.
  intros Hb. induction a as [|c a IH]; cbn [append head].
  - cbn [PyStr.count]. cbn. now rewrite (head_plain _ Hb).
  - assert (H : Nat.ltb 0 (PyStr.count "/"%char (String c (a ++ String "/"%char b))) = true).
    { apply Nat.ltb_lt. cbn [PyStr.count]. rewrite count_app. cbn [PyStr.count].
      rewrite Ascii.eqb_refl. lia. }
    rewrite H, IH. reflexivity.
Qed.

Lemma rstrip_keep (a : string) : ends_with_slash a = false -> rstrip a = a.
Proof.
  induction a as [|c a IH]; [reflexivity|]. cbn [ends_with_slash rstrip].
  destruct a as [|d a].
  - cbn [rstrip]. now intros ->.
  - intros H. rewrite (IH H). reflexivity.
Qed.

Lemma rstrip_slash (a : string) :
  rstrip (a ++ String "/"%char EmptyString) = rstrip a.
Proof.
  induction a as [|c a IH]; [reflexivity|].
  cbn [append rstrip]. now rewrite IH.
Qed.

Lemma all_slashes_broken (a x : string) :
  a <> EmptyString -> ends_with_slash a = false -> all_slashes (a ++ x) = false.
Proof.
  induction a as [|c a IH]; [congruence|]. intros _.
  cbn [ends_with_slash append all_slashes]. destruct a as [|d a].
  - now intros ->.
  - intros H. rewrite IH; [apply andb_false_r|discriminate|exact H].
Qed.

Lemma truthy_app (a b : string) :
  PyStr.truthy (a ++ b) = PyStr.truthy a || PyStr.truthy b.
Proof. destruct a; reflexivity. Qed.

Lemma ends_with_slash_app (a b : string) :
  b <> EmptyString -> ends_with_slash (a ++ b) = ends_with_slash b.
Proof.
  intros Hb. induction a as [|c a IH]; [reflexivity|].
  cbn [append ends_with_slash]. rewrite IH.
  destruct (a ++ b) eqn:E; [|reflexivity].
  destruct a; [cbn in E; congruence|discriminate E].
Qed.

Lemma ends_with_slash_clean (d : string) :
  PyStr.count "/"%char d = 0 -> ends_with_slash d = false.
Proof.
  induction d as [|c d IH]; [reflexivity|].
  cbn [PyStr.count ends_with_slash].
  destruct (Ascii.eqb c "/"%char); [discriminate|]. intros H.
  destruct d; [reflexivity|now apply IH].
Qed.

(** [dirname] of [a/b]. *)
Lemma dirname_split (a b : string) :
  a <> EmptyString -> ends_with_slash a = false -> PyStr.count "/"%char b = 0 ->
  dirname (a ++ String "/"%char b) = a.
Proof.
  intros Ha He Hb. unfold dirname. rewrite (head_split _ _ Hb).
  rewrite truthy_app, (all_slashes_broken _ _ Ha He), orb_true_r.
  cbn [negb andb]. now rewrite rstrip_slash, rstrip_keep.
Qed.

Lemma dirname_root (b : string) :
  PyStr.count "/"%char b = 0 -> dirname (String "/"%char b) = String "/"%char EmptyString.
Proof.
  intros Hb. unfold dirname.
  pose proof (head_split EmptyString b Hb) as H. cbn [append] in H.
  rewrite H. reflexivity.
Qed.

Lemma dirname_plain (b : string) :
  PyStr.count "/"%char b = 0 -> dirname b = EmptyString.
Proof.
  intros Hb. unfold dirname. now rewrite (head_plain _ Hb).
Qed.

Lemma join2_relative (path b : string) :
  PyStr.startswith b "/" = false ->
  path <> EmptyString -> ends_with_slash path = false ->
  join2 path b = path ++ String "/"%char b.
Proof.
  intros Hb Hp He. unfold join2. rewrite Hb, He.
  destruct path; [congruence|reflexivity].
Qed.

End Paths.

(** X17.  For a script at [root/dir/name], where [root] does not end with a
    slash, the file is saved as [root/main/qrcode/qrcodegen.c]: under
    the parent of the script's directory, whatever that directory is
    called. *)
Theorem output_file_beside_scripts_dir (root dir name : string) :
  PosixPath.ends_with_slash root = false ->
  dir <> EmptyString -> PyStr.count "/"%char dir = 0 ->
  PyStr.count "/"%char name = 0 ->
  Download.OUTPUT_FILE (root ++ "/" ++ dir ++ "/" ++ name)
  = root ++ "/main/qrcode/qrcodegen.c".
Proof.
  intros Hroot Hdir Hd Hn. unfold Download.OUTPUT_FILE.
  assert (E0 : root ++ "/" ++ dir ++ "/" ++ name
               = (root ++ String "/"%char dir) ++ String "/"%char name)
    by (rewrite append_assoc; reflexivity).
  assert (E1 : PosixPath.dirname (root ++ "/" ++ dir ++ "/" ++ name)
               = root ++ String "/"%char dir).
  { rewrite E0. apply dirname_split.
    - destruct root; discriminate.
    - rewrite ends_with_slash_app by discriminate.
      change (String "/"%char dir) with ("/" ++ dir).
      rewrite (ends_with_slash_app "/" dir Hdir).
      now apply ends_with_slash_clean.
    - exact Hn. }
  rewrite E1.
  assert (E2 : PosixPath.join2 (PosixPath.dirname (root ++ String "/"%char dir))
                 "main" = root ++ "/main").
  { destruct root as [|c root].
    - cbn [append]. rewrite (dirname_root _ Hd). reflexivity.
    - rewrite (dirname_split (String c root) dir);
        [|discriminate|exact Hroot|exact Hd].
      rewrite join2_relative;
        [reflexivity|reflexivity|discriminate|exact Hroot]. }
  cbn [PosixPath.join fold_left]. rewrite E2.
  rewrite (join2_relative (root ++ "/main") "qrcode");
    [|reflexivity|destruct root; discriminate
     |now rewrite ends_with_slash_app by discriminate].
  rewrite join2_relative; [|reflexivity|destruct root; discriminate|].
  - rewrite !append_assoc. reflexivity.
  - rewrite append_assoc, ends_with_slash_app by discriminate. reflexivity.
Qed.

Lemma output_file_beside_scripts_dir_witness :
  Download.OUTPUT_FILE ("/home/dev/kiki" ++ "/" ++ "scripts" ++ "/"
                        ++ "download_qrcodegen.py")
  = "/home/dev/kiki" ++ "/main/qrcode/qrcodegen.c".
Proof.
  apply output_file_beside_scripts_dir; try reflexivity. discriminate.
Defined.

(** X18.  When the script's path has no directory part, or a single relative
    one, the output path is the relative [main/qrcode/qrcodegen.c]: it
    is then resolved against the working directory, not against the
    place of the script. *)
Theorem output_file_for_short_paths (dir name : string) :
  PyStr.count "/"%char dir = 0 -> PyStr.count "/"%char name = 0 ->
  Download.OUTPUT_FILE name = "main/qrcode/qrcodegen.c" /\
  (dir <> EmptyString ->
   Download.OUTPUT_FILE (dir ++ "/" ++ name) = "main/qrcode/qrcodegen.c").
Proof.
  intros Hd Hn. unfold Download.OUTPUT_FILE. split.
  - rewrite (dirname_plain _ Hn). reflexivity.
  - intros Hdir. change (dir ++ "/" ++ name) with (dir ++ String "/"%char name).
    rewrite (dirname_split dir name Hdir (ends_with_slash_clean _ Hd) Hn).
    rewrite (dirname_plain _ Hd). reflexivity.
Qed.

Lemma output_file_for_short_paths_witness :
  Download.OUTPUT_FILE "download_qrcodegen.py" = "main/qrcode/qrcodegen.c" /\
  Download.OUTPUT_FILE ("scripts" ++ "/" ++ "download_qrcodegen.py")
  = "main/qrcode/qrcodegen.c".
Proof.
  destruct (output_file_for_short_paths "scripts" "download_qrcodegen.py"
              eq_refl eq_refl) as (H1 & H2).
  split; [exact H1|]. apply H2. discriminate.
Defined.

(** * The merge script *)

(** X19.  The script reaches its end exactly when the build directory can be
    entered and either the in-process merge returns, or [esptool] could
    not be imported (at once or in the middle of its own run), both
    fallback tools exist and the subprocess returns 0.  Whether the
    merged file exists afterwards plays no part. *)
Theorem merge_finishes_iff (w : MergedBin.world) :
  fst (MergedBin.script w) = MergedBin.Finished <->
  MergedBin.chdir_ok w = true /\
  ((MergedBin.import_ok w = true /\
    MergedBin.esptool_main w MergedBin.args = MergedBin.Returns) \/
   ((MergedBin.import_ok w = false \/
     MergedBin.esptool_main w MergedBin.args = MergedBin.RaisesImportError) /\
    MergedBin.path_exists w MergedBin.python_exe = true /\
    MergedBin.path_exists w MergedBin.esptool_script = true /\
    MergedBin.subprocess_run w MergedBin.cmd = Some 0%Z)).
Proof.
  unfold MergedBin.script, MergedBin.on_import_error.
  destruct (MergedBin.chdir_ok w), (MergedBin.import_ok w),
    (MergedBin.esptool_main w MergedBin.args),
    (MergedBin.path_exists w MergedBin.python_exe),
    (MergedBin.path_exists w MergedBin.esptool_script),
    (MergedBin.path_exists w MergedBin.merged_file),
    (MergedBin.subprocess_run w MergedBin.cmd) as [rc|];
    cbn [negb andb fst]; try destruct (Z.eqb rc 0) eqn:E;
    try (apply Z.eqb_eq in E; subst rc);
    try (apply Z.eqb_neq in E);
    cbn [fst];
    (split;
     [ intros H; try discriminate H; intuition congruence
     | intros H; intuition congruence ]).
Qed.

(** X20.  The merge tool is started at most twice, always with the same
    arguments, in process or as a subprocess; and it is started twice
    exactly when [esptool] imports, its run ends with an import error
    and both fallback tools exist. *)
Theorem merge_invocations (w : MergedBin.world) :
  let started := MergedBin.invocations (snd (MergedBin.script w)) in
  Forall (fun e => MergedBin.tool_args e = MergedBin.args) started /\
  List.length started <= 2 /\
  (List.length started = 2 <->
   MergedBin.chdir_ok w = true /\ MergedBin.import_ok w = true /\
   MergedBin.esptool_main w MergedBin.args = MergedBin.RaisesImportError /\
   MergedBin.path_exists w MergedBin.python_exe = true /\
   MergedBin.path_exists w MergedBin.esptool_script = true).
Proof.
  unfold MergedBin.script, MergedBin.on_import_error.
  destruct (MergedBin.chdir_ok w), (MergedBin.import_ok w),
    (MergedBin.esptool_main w MergedBin.args),
    (MergedBin.path_exists w MergedBin.python_exe),
    (MergedBin.path_exists w MergedBin.esptool_script),
    (MergedBin.path_exists w MergedBin.merged_file),
    (MergedBin.subprocess_run w MergedBin.cmd) as [rc|];
    cbn [negb andb]; try destruct (Z.eqb rc 0);
    cbn [snd app MergedBin.invocations List.length];
    (split; [repeat constructor|]);
    (split; [lia|]);
    (split; [intros H; try discriminate H; repeat split; reflexivity
            |intros H; intuition congruence]).
Qed.

Lemma merge_finishes_iff_witness :
  fst (MergedBin.script MergedBin.w_late_import_error) = MergedBin.Finished /\
  fst (MergedBin.script MergedBin.w_no_tools) <> MergedBin.Finished.
Proof.
  split.
  - apply (proj2 (merge_finishes_iff MergedBin.w_late_import_error)).
    split; [reflexivity|]. right. repeat split; try reflexivity.
    right. reflexivity.
  - intros H. apply (proj1 (merge_finishes_iff MergedBin.w_no_tools)) in H.
    destruct H as (_ & [(Hi & _) | (_ & Hp & _)]); discriminate.
Defined.

Lemma merge_invocations_witness :
  List.length (MergedBin.invocations
                 (snd (MergedBin.script MergedBin.w_late_import_error))) = 2.
Proof.
  apply (proj2 (proj2 (proj2 (merge_invocations MergedBin.w_late_import_error)))).
  repeat split; reflexivity.
Defined.
